(** * Tsunami risk pipeline: the single-shot form and the monitoring feed

    A shallow embedding of [app.py] and of the page
    [pages/1_..._Monitoreo_Tiempo_Real.py], and the properties of the
    event-to-risk pipeline proved on it.

    Conventions of the embedding.
    - A Python number (an [int], a finite [float], or a [bool], which is an
      [int] subclass worth 0 or 1) is the rational it denotes; a decimal
      literal of the source is its decimal value; arithmetic on finite
      numbers is exact.  The non-finite floats are kept apart ([PInf],
      [NInf], [NaN]) with the IEEE rules for comparison and arithmetic.
    - A Python exception is [Raise]: the only handlers of the two files are
      [except Exception], so the kind of an exception is never observed.
    - A [dict] built by the program is a [gmap string value]; a [dict] or a
      [list] that arrives inside the parsed catalog response is a [VDict]
      or a [VList].
    - The scaler, the classifier and the schema file, the HTTP exchange and
      the local calendar are outside the two files: they are parameters. *)

From Stdlib Require Import QArith Lqa ZArith List Sorted Permutation.
From stdpp Require Import gmap strings list.

#[local] Set Warnings "-register-all".
Open Scope Q_scope.

(** ** Numbers *)

Inductive num : Type :=
| Fin (q : Q)
| PInf
| NInf
| NaN.

Definition Qlt_bool (x y : Q) : bool := negb (Qle_bool y x).

Definition inf (negative : bool) : num := if negative then NInf else PInf.

Definition num_ltb (x y : num) : bool :=
  match x, y with
  | NaN, _ | _, NaN => false
  | Fin a, Fin b => Qlt_bool a b
  | NInf, NInf => false
  | NInf, _ => true
  | PInf, _ => false
  | Fin _, PInf => true
  | Fin _, NInf => false
  end.

Definition num_leb (x y : num) : bool :=
  match x, y with
  | NaN, _ | _, NaN => false
  | Fin a, Fin b => Qle_bool a b
  | NInf, _ => true
  | PInf, PInf => true
  | PInf, _ => false
  | Fin _, PInf => true
  | Fin _, NInf => false
  end.

Definition num_eqb (x y : num) : bool :=
  match x, y with
  | Fin a, Fin b => Qeq_bool a b
  | PInf, PInf | NInf, NInf => true
  | _, _ => false
  end.

Definition num_add (x y : num) : num :=
  match x, y with
  | NaN, _ | _, NaN => NaN
  | Fin a, Fin b => Fin (a + b)
  | PInf, NInf | NInf, PInf => NaN
  | PInf, _ | _, PInf => PInf
  | NInf, _ | _, NInf => NInf
  end.

Definition num_mul (x y : num) : num :=
  match x, y with
  | NaN, _ | _, NaN => NaN
  | Fin a, Fin b => Fin (a * b)
  | Fin a, PInf | PInf, Fin a =>
      if Qeq_bool a 0 then NaN else inf (Qlt_bool a 0)
  | Fin a, NInf | NInf, Fin a =>
      if Qeq_bool a 0 then NaN else inf (negb (Qlt_bool a 0))
  | PInf, PInf | NInf, NInf => PInf
  | PInf, NInf | NInf, PInf => NInf
  end.

(** Division by a divisor that is not zero. *)
Definition num_div_nz (x y : num) : num :=
  match x, y with
  | NaN, _ | _, NaN => NaN
  | Fin a, Fin b => Fin (a / b)
  | Fin _, (PInf | NInf) => Fin 0
  | PInf, Fin b => inf (Qlt_bool b 0)
  | NInf, Fin b => inf (negb (Qlt_bool b 0))
  | (PInf | NInf), (PInf | NInf) => NaN
  end.

Definition is_zero (y : num) : bool :=
  match y with Fin b => Qeq_bool b 0 | _ => false end.

(** NumPy and pandas division: a zero divisor gives an infinity or NaN. *)
Definition num_div_ieee (x y : num) : num :=
  if is_zero y then
    match x with
    | NaN => NaN
    | Fin a => if Qeq_bool a 0 then NaN else inf (Qlt_bool a 0)
    | PInf => PInf
    | NInf => NInf
    end
  else num_div_nz x y.

(** ** Values and exceptions *)

Inductive value : Type :=
| VNone
| VNum (x : num)
| VStr (s : string)
| VList (l : list value)
| VDict (items : list (string * value))
| VTime (t : Q).   (* a [datetime], by its POSIX timestamp in seconds *)

Inductive result (A : Type) : Type :=
| Ok (a : A)
| Raise.
Arguments Ok {A} a.
Arguments Raise {A}.

Definition bind {A B : Type} (m : result A) (k : A -> result B) : result B :=
  match m with
  | Ok a => k a
  | Raise => Raise
  end.

Notation "'let*' x ':=' m 'in' k" := (bind m (fun x => k))
  (at level 10, x name, m at level 100, k at level 200).

(** [try: ... except Exception: return d]. *)
Definition try_except {A : Type} (body : result A) (d : A) : A :=
  match body with
  | Ok a => a
  | Raise => d
  end.

Definition lit (q : Q) : value := VNum (Fin q).

Module Py.

(** [v < w], [v > w], [v >= w] where [w] is a number: a [TypeError] for
    [None], a [str], a [list], a [dict] or a [datetime] on the left. *)
Definition lt (v w : value) : result bool :=
  match v, w with
  | VNum x, VNum y => Ok (num_ltb x y)
  | _, _ => Raise
  end.

Definition gt (v w : value) : result bool := lt w v.

Definition ge (v w : value) : result bool :=
  match v, w with
  | VNum x, VNum y => Ok (num_leb y x)
  | _, _ => Raise
  end.

(** [v == w] where [w] is a number: never raises, and is [False] for a
    left operand that is not a number. *)
Definition eq_num (v w : value) : bool :=
  match v, w with
  | VNum x, VNum y => num_eqb x y
  | _, _ => false
  end.

(** [v + w] where [w] is a number: a [TypeError] unless [v] is one. *)
Definition add (v w : value) : result value :=
  match v, w with
  | VNum x, VNum y => Ok (VNum (num_add x y))
  | _, _ => Raise
  end.

(** [v * w] where [w] is a [float]: a [str] or a [list] on the left is a
    [TypeError] (repetition needs an [int]). *)
Definition mul (v w : value) : result value :=
  match v, w with
  | VNum x, VNum y => Ok (VNum (num_mul x y))
  | _, _ => Raise
  end.

(** Python's [/]: [ZeroDivisionError] on a zero divisor. *)
Definition div (v w : value) : result value :=
  match v, w with
  | VNum x, VNum y => if is_zero y then Raise else Ok (VNum (num_div_nz x y))
  | _, _ => Raise
  end.

(** [a and b], [a or b] on comparison results: the right operand is
    evaluated only when the left one does not decide. *)
Definition and_ (a b : result bool) : result bool :=
  let* x := a in if x then b else Ok false.

Definition or_ (a b : result bool) : result bool :=
  let* x := a in if x then Ok true else b.

(** [a & b], [a | b] on two [bool]s: both operands are evaluated. *)
Definition band (a b : result bool) : result bool :=
  let* x := a in let* y := b in Ok (x && y).

Definition bor (a b : result bool) : result bool :=
  let* x := a in let* y := b in Ok (x || y).

(** [int(b)] of a [bool]. *)
Definition int_of_bool (b : bool) : value := VNum (Fin (inject_Z (Z.b2z b))).

(** [d[k]] of a program dict: [KeyError] when absent. *)
Definition getitem (d : gmap string value) (k : string) : result value :=
  match d !! k with
  | Some v => Ok v
  | None => Raise
  end.

(** [d.get(k, dflt)]. *)
Definition get (d : gmap string value) (k : string) (dflt : value) : value :=
  default dflt (d !! k).

(** Lookup in the entries of a dict of the parsed response (each key
    occurs once). *)
Fixpoint assoc (k : string) (items : list (string * value)) : option value :=
  match items with
  | [] => None
  | (k', v) :: items' => if String.eqb k k' then Some v else assoc k items'
  end.

(** [v[k]] with a [str] key: [KeyError] on a dict without [k],
    [TypeError] on anything that is not a dict. *)
Definition subscript (v : value) (k : string) : result value :=
  match v with
  | VDict items =>
      match assoc k items with
      | Some x => Ok x
      | None => Raise
      end
  | _ => Raise
  end.

(** [v[i]] with an index [i >= 0]: an element of a list, a character of
    a [str] (strings are indexed by byte here, which is Python's indexing
    on ASCII text), [IndexError] out of range; a dict of the parsed
    response has no [int] key. *)
Definition index (v : value) (i : nat) : result value :=
  match v with
  | VList l =>
      match nth_error l i with
      | Some x => Ok x
      | None => Raise
      end
  | VStr s =>
      match String.get i s with
      | Some c => Ok (VStr (String c EmptyString))
      | None => Raise
      end
  | _ => Raise
  end.

(** [v.get(k, dflt)]: [AttributeError] on anything that is not a dict. *)
Definition dict_get (v : value) (k : string) (dflt : value) : result value :=
  match v with
  | VDict items => Ok (default dflt (assoc k items))
  | _ => Raise
  end.

(** The elements a [for] loop visits: the items of a list, the keys of a
    dict, the characters of a [str]; [TypeError] otherwise. *)
Definition iter (v : value) : result (list value) :=
  match v with
  | VList l => Ok l
  | VDict items => Ok (map (fun kv => VStr (fst kv)) items)
  | VStr s =>
      Ok (map (fun c => VStr (String c EmptyString)) (String.list_ascii_of_string s))
  | _ => Raise
  end.

End Py.

(** pandas on the one-row frame: comparison, [+], [*] and [&] act on the
    single cell as Python's do ([Py.lt], [Py.add], [Py.mul], [Py.band]);
    [/] follows NumPy and does not raise on a zero divisor. *)
Module Pd.

Definition div (v w : value) : result value :=
  match v, w with
  | VNum x, VNum y => Ok (VNum (num_div_ieee x y))
  | _, _ => Raise
  end.

End Pd.

(** The host's calendar behind [datetime.fromtimestamp]: which timestamps
    it accepts, and the local year and month of a timestamp. *)
Record calendar : Type := {
  representable : Q -> bool;
  year_of : Q -> Z;
  month_of : Q -> Z
}.

Abbreviation event := (gmap string value).

(** The artifacts loaded by [load_model]: the schema [features.json], and
    the scaler followed by the classifier, which are opaque here.
    [predict_proba] stands for [model.predict_proba(scaler.transform(X))]
    read at row 0, class 1 (a probability, hence a finite number) and
    [predict] for [model.predict(scaler.transform(X))[0]]; they receive the
    row of [X] in schema order and may raise. *)
Record artifacts : Type := {
  feature_names : list string;
  predict_proba : list value -> result Q;
  predict : list value -> result value
}.

(** [pd.DataFrame([row])[feature_names]]: a [KeyError] for a name that is
    not a column. *)
Fixpoint select_columns (row : gmap string value) (names : list string)
  : result (list value) :=
  match names with
  | [] => Ok []
  | n :: names' =>
      let* v := Py.getitem row n in
      let* vs := select_columns row names' in
      Ok (v :: vs)
  end.

(** A message box of the page, by the call that shows it and the heading
    of its text. *)
Inductive notice : Type :=
| st_error (text : string)
| st_warning (text : string)
| st_info (text : string)
| st_success (text : string).

(** A [for] loop that appends one result per element and stops at the
    first exception. *)
Fixpoint for_each {A B : Type} (body : A -> result B) (l : list A)
  : result (list B) :=
  match l with
  | [] => Ok []
  | x :: l' =>
      let* y := body x in
      let* ys := for_each body l' in
      Ok (y :: ys)
  end.

(** [np.linspace(start, stop, num)]: [num] evenly spaced samples, both
    ends included. *)
Definition linspace (start stop : Q) (num : nat) : list Q :=
  let step := (stop - start) / inject_Z (Z.of_nat (num - 1)) in
  map (fun i => start + inject_Z (Z.of_nat i) * step) (seq 0 num).

(** ** app.py *)

Module App.

Definition calculate_ocean_proximity (lat lon : value) : result value :=
  let* pacific_ring :=
    Py.band
      (Py.band (Py.gt lat (lit (-60))) (Py.lt lat (lit 60)))
      (Py.bor (Py.band (Py.gt lon (lit 120)) (Py.lt lon (lit 180)))
              (Py.band (Py.gt lon (lit (-180))) (Py.lt lon (lit (-60))))) in
  let* indian_ocean :=
    Py.band (Py.band (Py.gt lat (lit (-45))) (Py.lt lat (lit 25)))
            (Py.band (Py.gt lon (lit 40)) (Py.lt lon (lit 120))) in
  let* caribbean :=
    Py.band (Py.band (Py.gt lat (lit 5)) (Py.lt lat (lit 25)))
            (Py.band (Py.gt lon (lit (-90))) (Py.lt lon (lit (-55)))) in
  Ok (Py.int_of_bool (pacific_ring || indian_ocean || caribbean)).

Definition engineer_features (data : gmap string value)
  : result (gmap string value) :=
  let* lat := Py.getitem data "latitude" in
  let* lon := Py.getitem data "longitude" in
  let* ocean_proximity := calculate_ocean_proximity lat lon in
  let data := <["ocean_proximity" := ocean_proximity]> data in
  let* magnitude := Py.getitem data "magnitude" in
  let* depth := Py.getitem data "depth" in
  let* depth1 := Py.add depth (lit 1) in
  let* mag_depth_ratio := Py.div magnitude depth1 in
  let data := <["mag_depth_ratio" := mag_depth_ratio]> data in
  let* magnitude := Py.getitem data "magnitude" in
  let* t1 := Py.mul magnitude (lit 0.5) in
  let* t2 := Py.mul (Py.get data "mmi" (lit 0)) (lit 0.3) in
  let* s100 := Py.div (Py.get data "sig" (lit 0)) (lit 100) in
  let* t3 := Py.mul s100 (lit 0.2) in
  let* t12 := Py.add t1 t2 in
  let* intensity_score := Py.add t12 t3 in
  let data := <["intensity_score" := intensity_score]> data in
  let* shallow_strong :=
    Py.and_ (let* depth := Py.getitem data "depth" in Py.lt depth (lit 70))
            (let* magnitude := Py.getitem data "magnitude" in
             Py.gt magnitude (lit 7.5)) in
  let data := <["shallow_strong" := Py.int_of_bool shallow_strong]> data in
  Ok data.

Record prediction : Type := {
  probability : Q;
  prediction_label : value;
  risk_level : string;
  risk_color : string;
  risk_factors : list string
}.

(** [model] is the global bound by [load_model()]: [None] when an
    artifact could not be loaded.  Nothing catches an exception here. *)
Definition predict_tsunami (model : option artifacts)
    (earthquake_data : gmap string value) : result (option prediction) :=
  match model with
  | None => Ok None
  | Some m =>
      let* processed := engineer_features earthquake_data in
      let* X := select_columns processed (feature_names m) in
      let* probability := predict_proba m X in
      let* prediction := predict m X in
      let '(risk_level, risk_color) :=
        if Qle_bool 0.7 probability then ("🔴 Alto", "#dc3545")
        else if Qle_bool 0.3 probability then ("🟡 Moderado", "#ffc107")
        else ("🟢 Bajo", "#28a745") in
      let risk_factors := [] in
      let* magnitude := Py.getitem earthquake_data "magnitude" in
      let* c1 := Py.ge magnitude (lit 7.5) in
      let risk_factors :=
        if c1 then risk_factors ++ ["⚠️ Magnitud muy alta (≥7.5)"]
        else risk_factors in
      let* depth := Py.getitem earthquake_data "depth" in
      let* c2 := Py.lt depth (lit 70) in
      let risk_factors :=
        if c2 then risk_factors ++ ["⚠️ Terremoto superficial (<70km)"]
        else risk_factors in
      let* ocean_proximity := Py.getitem processed "ocean_proximity" in
      let risk_factors :=
        if Py.eq_num ocean_proximity (lit 1)
        then risk_factors ++ ["⚠️ Cerca de zona oceánica de riesgo"]
        else risk_factors in
      let* c4 := Py.ge (Py.get earthquake_data "mmi" (lit 0)) (lit 6) in
      let risk_factors :=
        if c4 then risk_factors ++ ["⚠️ Intensidad percibida alta"]
        else risk_factors in
      Ok (Some {| probability := probability;
                  prediction_label := prediction;
                  risk_level := risk_level;
                  risk_color := risk_color;
                  risk_factors := risk_factors |})
  end.

(** The dict [earthquake_data] that the form builds from its inputs. *)
Definition earthquake_data
    (magnitude depth latitude longitude cdi mmi sig nst dmin gap year month : Q)
    (place : string) : gmap string value :=
  list_to_map
    [("magnitude", lit magnitude); ("depth", lit depth);
     ("latitude", lit latitude); ("longitude", lit longitude);
     ("cdi", lit cdi); ("mmi", lit mmi); ("sig", lit sig); ("nst", lit nst);
     ("dmin", lit dmin); ("gap", lit gap); ("Year", lit year);
     ("Month", lit month); ("place", VStr place)].

(** The block [# Recomendaciones] shown under a prediction. *)
Definition recommendation (result : prediction) : notice :=
  if Qle_bool 0.7 (probability result) then st_error "**🚨 ALERTA MÁXIMA**"
  else if Qle_bool 0.3 (probability result) then st_warning "**⚠️ PRECAUCIÓN**"
  else st_info "**ℹ️ RIESGO BAJO**".

(** The dict [test_data] of the analysis tab. *)
Definition test_data (mag dep : Q) : gmap string value :=
  list_to_map
    [("magnitude", lit mag); ("depth", lit dep); ("latitude", lit 35.0);
     ("longitude", lit 140.0); ("cdi", lit 5.0); ("mmi", lit 6.0);
     ("sig", lit 800); ("nst", lit 50); ("dmin", lit 1.0);
     ("gap", lit 100.0); ("Year", lit 2024); ("Month", lit 1)].

(** The matrix [probs] of the heat map: one row per magnitude, one entry
    per depth. *)
Definition heatmap (model : option artifacts) : result (list (list Q)) :=
  let mag_range := linspace 5 9 20 in
  let depth_range := linspace 0 200 20 in
  for_each
    (fun mag =>
       for_each
         (fun dep =>
            let* result := predict_tsunami model (test_data mag dep) in
            Ok (match result with
                | Some r => probability r * 100
                | None => 0
                end))
         depth_range)
    mag_range.

End App.

(** ** pages/1_..._Monitoreo_Tiempo_Real.py *)

Module Monitoreo.

(** What the catalog answers to the query: [requests.get] fails to
    connect or times out after 10 s, [raise_for_status] rejects the
    status, [response.json()] cannot parse the body, or the parsed body. *)
Inductive upstream : Type :=
| ConnectionFailed
| TimedOut
| HttpErrorStatus
| InvalidJson
| Body (data : value).

Definition response_json (u : upstream) : result value :=
  match u with
  | Body data => Ok data
  | ConnectionFailed | TimedOut | HttpErrorStatus | InvalidJson => Raise
  end.

Definition fromtimestamp (cal : calendar) (v : value) : result value :=
  match v with
  | VNum (Fin t) => if representable cal t then Ok (VTime t) else Raise
  | _ => Raise
  end.

Definition earthquake_of_feature (cal : calendar) (feature : value)
  : result event :=
  let* props := Py.subscript feature "properties" in
  let* geometry := Py.subscript feature "geometry" in
  let* coords := Py.subscript geometry "coordinates" in
  let* id := Py.subscript feature "id" in
  let* ms := Py.subscript props "time" in
  let* secs := Py.div ms (lit 1000) in
  let* time := fromtimestamp cal secs in
  let* mag := Py.subscript props "mag" in
  let* place := Py.subscript props "place" in
  let* longitude := Py.index coords 0 in
  let* latitude := Py.index coords 1 in
  let* depth := Py.index coords 2 in
  let* sig := Py.dict_get props "sig" (lit 1000) in
  let* mmi := Py.dict_get props "mmi" (lit 5) in
  let* cdi := Py.dict_get props "cdi" (lit 5) in
  let* nst := Py.dict_get props "nst" (lit 50) in
  let* dmin := Py.dict_get props "dmin" (lit 1.0) in
  let* gap := Py.dict_get props "gap" (lit 100.0) in
  let* url := Py.dict_get props "url" (VStr "") in
  let* tsunami := Py.dict_get props "tsunami" (lit 0) in
  Ok (list_to_map
        [("id", id); ("time", time); ("magnitude", mag); ("place", place);
         ("longitude", longitude); ("latitude", latitude); ("depth", depth);
         ("sig", sig); ("mmi", mmi); ("cdi", cdi); ("nst", nst);
         ("dmin", dmin); ("gap", gap); ("url", url); ("tsunami", tsunami)]).

(** The [for feature in ...] loop with its [earthquakes.append]. *)
Fixpoint collect (cal : calendar) (features : list value)
  : result (list event) :=
  match features with
  | [] => Ok []
  | feature :: features' =>
      let* earthquake := earthquake_of_feature cal feature in
      let* earthquakes := collect cal features' in
      Ok (earthquake :: earthquakes)
  end.

(** [catalog minutes min_magnitude] is the outcome of the HTTP exchange
    for the window that ends at the time of the call. *)
Definition parse_features (cal : calendar) (data : value)
  : result (list event) :=
  let* features := Py.dict_get data "features" (VList []) in
  let* features := Py.iter features in
  collect cal features.

Definition fetch_recent_earthquakes (cal : calendar)
    (catalog : Z -> Q -> upstream) (minutes : Z) (min_magnitude : Q)
  : list event :=
  try_except
    (let* data := response_json (catalog minutes min_magnitude) in
     parse_features cal data)
    [].

Definition calculate_ocean_proximity (lat lon : value) : result value :=
  let* pacific_ring :=
    Py.and_
      (Py.and_ (Py.gt lat (lit (-60))) (Py.lt lat (lit 60)))
      (Py.or_ (Py.and_ (Py.gt lon (lit 120)) (Py.lt lon (lit 180)))
              (Py.and_ (Py.gt lon (lit (-180))) (Py.lt lon (lit (-60))))) in
  let* indian_ocean :=
    Py.and_ (Py.and_ (Py.gt lat (lit (-45))) (Py.lt lat (lit 25)))
            (Py.and_ (Py.gt lon (lit 40)) (Py.lt lon (lit 120))) in
  let* caribbean :=
    Py.and_ (Py.and_ (Py.gt lat (lit 5)) (Py.lt lat (lit 25)))
            (Py.and_ (Py.gt lon (lit (-90))) (Py.lt lon (lit (-55)))) in
  Ok (Py.int_of_bool (pacific_ring || indian_ocean || caribbean)).

Definition defaults : list (string * value) :=
  [("magnitude", lit 5.0); ("depth", lit 10.0); ("latitude", lit 0.0);
   ("longitude", lit 0.0); ("sig", lit 1000); ("mmi", lit 5.0);
   ("cdi", lit 5.0); ("nst", lit 50); ("dmin", lit 1.0);
   ("gap", lit 100.0)].

(** [val is None or (isinstance(val, float) and pd.isna(val))]. *)
Definition is_missing (val : value) : bool :=
  match val with
  | VNone | VNum NaN => true
  | _ => false
  end.

(** The loop [for key in defaults] that fills [input_data]. *)
Definition prepare_input (earthquake : event) : gmap string value :=
  foldl (fun input_data kd =>
           let val := Py.get earthquake (fst kd) (snd kd) in
           let val := if is_missing val then snd kd else val in
           <[fst kd := val]> input_data)
        ∅ defaults.

(** [dt.year], [dt.month]: [AttributeError] unless [dt] is a datetime. *)
Definition attr_year (cal : calendar) (dt : value) : result value :=
  match dt with
  | VTime t => Ok (VNum (Fin (inject_Z (year_of cal t))))
  | _ => Raise
  end.

Definition attr_month (cal : calendar) (dt : value) : result value :=
  match dt with
  | VTime t => Ok (VNum (Fin (inject_Z (month_of cal t))))
  | _ => Raise
  end.

Record risk : Type := {
  probability : Q;
  risk_level : string;
  risk_color : string;
  risk_emoji : string
}.

(** The block [# Clasificar riesgo] of [predict_tsunami_risk], with the
    dict it returns. *)
Definition classify_risk (probability : Q) : risk :=
  let '(risk_level, risk_color, risk_emoji) :=
    if Qlt_bool probability 0.2 then ("Muy Bajo", "#10b981", "🟢")
    else if Qlt_bool probability 0.4 then ("Bajo", "#84cc16", "🟢")
    else if Qlt_bool probability 0.6 then ("Moderado", "#f59e0b", "🟡")
    else if Qlt_bool probability 0.8 then ("Alto", "#f97316", "🟠")
    else ("Muy Alto", "#ef4444", "🔴") in
  {| probability := probability;
     risk_level := risk_level;
     risk_color := risk_color;
     risk_emoji := risk_emoji |}.

(** The block [# Ingeniería de características] on the one-row frame. *)
Definition engineer (df : gmap string value) : result (gmap string value) :=
  let* lat := Py.getitem df "latitude" in
  let* lon := Py.getitem df "longitude" in
  let* ocean_proximity := calculate_ocean_proximity lat lon in
  let df := <["ocean_proximity" := ocean_proximity]> df in
  let* magnitude := Py.getitem df "magnitude" in
  let* depth := Py.getitem df "depth" in
  let* depth1 := Py.add depth (lit 1) in
  let* mag_depth_ratio := Pd.div magnitude depth1 in
  let df := <["mag_depth_ratio" := mag_depth_ratio]> df in
  let* magnitude := Py.getitem df "magnitude" in
  let* t1 := Py.mul magnitude (lit 0.5) in
  let* mmi := Py.getitem df "mmi" in
  let* t2 := Py.mul mmi (lit 0.3) in
  let* sig := Py.getitem df "sig" in
  let* s100 := Pd.div sig (lit 100) in
  let* t3 := Py.mul s100 (lit 0.2) in
  let* t12 := Py.add t1 t2 in
  let* intensity_score := Py.add t12 t3 in
  let df := <["intensity_score" := intensity_score]> df in
  let* shallow_strong :=
    Py.band (let* depth := Py.getitem df "depth" in Py.lt depth (lit 70))
            (let* magnitude := Py.getitem df "magnitude" in
             Py.gt magnitude (lit 7.5)) in
  let df := <["shallow_strong" := Py.int_of_bool shallow_strong]> df in
  Ok df.

Section Page.

Variable cal : calendar.
(** The global [model] bound by [load_model()]. *)
Variable model : option artifacts.
(** The slider value divided by 100. *)
Variable alert_threshold : Q.
(** The format [:.1f] of a number. *)
Variable format_1f : num -> string.

Definition predict_tsunami_risk (earthquake : event) : option risk :=
  match model with
  | None => None
  | Some m =>
      try_except
        (let input_data := prepare_input earthquake in
         let* dt := Py.getitem earthquake "time" in
         let* y := attr_year cal dt in
         let input_data := <["Year" := y]> input_data in
         let* mo := attr_month cal dt in
         let input_data := <["Month" := mo]> input_data in
         let* df := engineer input_data in
         let* X := select_columns df (feature_names m) in
         let* probability := predict_proba m X in
         Ok (Some (classify_risk probability)))
        None
  end.

(** [max(eq['magnitude'] for eq in earthquakes)] followed by the
    format [:.1f].  [max] keeps its first operand unless the next one
    is greater.  A magnitude that is not a number raises: either in a
    comparison with a number, or, when [max] returns it, in the
    format. *)
Fixpoint max_from (best : num) (rest : list event) : result num :=
  match rest with
  | [] => Ok best
  | eq :: rest' =>
      let* m := Py.getitem eq "magnitude" in
      match m with
      | VNum x => max_from (if num_ltb best x then x else best) rest'
      | _ => Raise
      end
  end.

Definition max_magnitude (earthquakes : list event) : result num :=
  match earthquakes with
  | [] => Raise
  | eq :: rest =>
      let* m := Py.getitem eq "magnitude" in
      match m with
      | VNum x => max_from x rest
      | _ => Raise
      end
  end.

Record metrics : Type := {
  total : nat;
  max_mag : string;
  alerts : nat
}.

(** The counting loop under [with col3]. *)
Definition alerts_count (earthquakes : list event) : nat :=
  let alerts_count := 0%nat in
  match earthquakes, model with
  | _ :: _, Some _ =>
      foldl (fun alerts_count eq =>
               match predict_tsunami_risk eq with
               | Some risk =>
                   if Qle_bool alert_threshold (probability risk)
                   then S alerts_count
                   else alerts_count
               | None => alerts_count
               end)
            alerts_count earthquakes
  | _, _ => alerts_count
  end.

(** The block [# Estadísticas generales]: the three metrics shown. *)
Definition summary_metrics (earthquakes : list event) : result metrics :=
  let total := length earthquakes in
  let* shown :=
    match earthquakes with
    | [] => Ok "N/A"
    | _ :: _ =>
        let* max_mag := max_magnitude earthquakes in
        Ok (format_1f max_mag)
    end in
  Ok {| total := total; max_mag := shown;
        alerts := alerts_count earthquakes |}.

(** An event of [earthquakes_with_risk]: the event dict and the value
    stored under its key ['risk']. *)
Record assessed : Type := {
  eq_data : event;
  eq_risk : risk
}.

(** The loop [# Analizar cada terremoto]. *)
Definition analyse (earthquakes : list event) : list assessed :=
  foldl (fun earthquakes_with_risk eq =>
           match predict_tsunami_risk eq with
           | Some risk =>
               earthquakes_with_risk
                 ++ [{| eq_data := eq; eq_risk := risk |}]
           | None => earthquakes_with_risk
           end)
        [] earthquakes.

(** [list.sort(key=..., reverse=True)]: Python's sort is stable, and
    with [reverse=True] elements of equal key still keep their
    original order.  An insertion sort with these properties stands
    for it. *)
Definition sort_key (x : assessed) : Q := probability (eq_risk x).

Fixpoint insert_desc (x : assessed) (l : list assessed) : list assessed :=
  match l with
  | [] => [x]
  | y :: l' =>
      if Qle_bool (sort_key y) (sort_key x) then x :: y :: l'
      else y :: insert_desc x l'
  end.

Fixpoint sort_desc (l : list assessed) : list assessed :=
  match l with
  | [] => []
  | x :: l' => insert_desc x (sort_desc l')
  end.

Definition earthquakes_with_risk (earthquakes : list event)
  : list assessed :=
  sort_desc (analyse earthquakes).

(** The list [high_risk] of the tab [Alertas Activas]. *)
Definition high_risk (earthquakes : list event) : list assessed :=
  List.filter (fun x => Qle_bool alert_threshold (probability (eq_risk x)))
              (earthquakes_with_risk earthquakes).

End Page.

(** The advice shown in the expander of an active alert. *)
Definition recommendation (r : risk) : notice :=
  if Qle_bool 0.7 (probability r) then st_error "🚨 EVACUACIÓN INMEDIATA"
  else if Qle_bool 0.5 (probability r) then st_warning "⚠️ PREPARAR EVACUACIÓN"
  else st_info "ℹ️ MANTENERSE ALERTA".

End Monitoreo.

(** ** Vocabulary of the specification *)

(** The three geofences, as open boxes. *)
Definition in_pacific_ring (lat lon : Q) : Prop :=
  (-60 < lat /\ lat < 60) /\
  ((120 < lon /\ lon < 180) \/ (-180 < lon /\ lon < -60)).

Definition in_indian_ocean (lat lon : Q) : Prop :=
  (-45 < lat /\ lat < 25) /\ (40 < lon /\ lon < 120).

Definition in_caribbean (lat lon : Q) : Prop :=
  (5 < lat /\ lat < 25) /\ (-90 < lon /\ lon < -55).

Definition in_risk_basin (lat lon : Q) : Prop :=
  in_pacific_ring lat lon \/ in_indian_ocean lat lon \/ in_caribbean lat lon.

(** The same test as a boolean. *)
Definition in_risk_basin_b (lat lon : Q) : bool :=
  (Qlt_bool (-60) lat && Qlt_bool lat 60)
    && ((Qlt_bool 120 lon && Qlt_bool lon 180)
        || (Qlt_bool (-180) lon && Qlt_bool lon (-60)))
  || (Qlt_bool (-45) lat && Qlt_bool lat 25)
       && (Qlt_bool 40 lon && Qlt_bool lon 120)
  || (Qlt_bool 5 lat && Qlt_bool lat 25)
       && (Qlt_bool (-90) lon && Qlt_bool lon (-55)).

(** An event all of whose numeric fields are finite numbers; [mmi] and
    [sig] may be absent from the dict of the form, and then count as 0. *)
Definition finite_event (data : gmap string value)
    (lat lon mag depth mmi sig : Q) : Prop :=
  data !! "latitude" = Some (lit lat) /\
  data !! "longitude" = Some (lit lon) /\
  data !! "magnitude" = Some (lit mag) /\
  data !! "depth" = Some (lit depth) /\
  Py.get data "mmi" (lit 0) = lit mmi /\
  Py.get data "sig" (lit 0) = lit sig.

(** The same for the one-row frame of the monitoring page, where every
    column is present. *)
Definition finite_frame (df : gmap string value)
    (lat lon mag depth mmi sig : Q) : Prop :=
  df !! "latitude" = Some (lit lat) /\
  df !! "longitude" = Some (lit lon) /\
  df !! "magnitude" = Some (lit mag) /\
  df !! "depth" = Some (lit depth) /\
  df !! "mmi" = Some (lit mmi) /\
  df !! "sig" = Some (lit sig).

Definition shallow_strong_b (mag depth : Q) : bool :=
  Qlt_bool depth 70 && Qlt_bool 7.5 mag.

(** What [engineer_features] and [engineer] add to a finite event. *)
Definition engineered (data : gmap string value)
    (lat lon mag depth mmi sig : Q) : gmap string value :=
  <["shallow_strong" := Py.int_of_bool (shallow_strong_b mag depth)]>
    (<["intensity_score" := lit (mag * 0.5 + mmi * 0.3 + sig / 100 * 0.2)]>
       (<["mag_depth_ratio" := lit (mag / (depth + 1))]>
          (<["ocean_proximity" := Py.int_of_bool (in_risk_basin_b lat lon)]>
             data))).

(** A feature that a derivation adds, when the derivation returns. *)
Definition feature (derive : gmap string value -> result (gmap string value))
    (data : gmap string value) (k : string) : option value :=
  match derive data with
  | Ok out => out !! k
  | Raise => None
  end.

(** Sample inputs: the Tohoku event of the form's examples, and two events
    of magnitude -1 at depths 0 km and 1 km. *)
Definition tohoku_at (depth : Q) : gmap string value :=
  App.earthquake_data 9.1 depth 38.322 142.369 5.0 7 1000 50 1.0 100.0 2011 3
                      "Japon 2011".

Definition japan_2011 : gmap string value := tohoku_at 29.0.

Definition micro_at (depth : Q) : gmap string value :=
  App.earthquake_data (-1) depth 0.0 0.0 5.0 1 0 50 1.0 100.0 2011 3 "".

(** The four descriptions of the form's risk factors. *)
Definition factor_magnitude : string := "⚠️ Magnitud muy alta (≥7.5)".
Definition factor_depth : string := "⚠️ Terremoto superficial (<70km)".
Definition factor_ocean : string := "⚠️ Cerca de zona oceánica de riesgo".
Definition factor_intensity : string := "⚠️ Intensidad percibida alta".

(** A schema and a classifier for the examples: the probability is 0.9
    for a shallow strong event and 0.1 otherwise. *)
Definition sample_model : artifacts :=
  {| feature_names := ["magnitude"; "depth"; "ocean_proximity";
                       "mag_depth_ratio"; "intensity_score"; "shallow_strong"];
     predict_proba := fun X =>
       match X with
       | [_; _; _; _; _; VNum (Fin s)] =>
           Ok (if Qeq_bool s 1 then 0.9 else 0.1)
       | _ => Raise
       end;
     predict := fun X =>
       match X with
       | [_; _; _; _; _; s] => Ok s
       | _ => Raise
       end |}.

Definition sample_calendar : calendar :=
  {| representable := fun _ => true;
     year_of := fun _ => 2011%Z;
     month_of := fun _ => 3%Z |}.

(** The mandatory fields of a raw event, each with the entry that
    [defaults] holds for it. *)
Definition mandatory_defaults : list (string * value) :=
  [("magnitude", lit 5.0); ("depth", lit 10.0); ("latitude", lit 0.0);
   ("longitude", lit 0.0)].

(** A field that is absent from the event, [None], or a NaN float. *)
Definition missing_field (earthquake : event) (k : string) : Prop :=
  earthquake !! k = None \/ earthquake !! k = Some VNone \/
  earthquake !! k = Some (VNum NaN).

(** An event of the feed that carries no magnitude. *)
Definition quake_without_magnitude : event :=
  list_to_map
    [("id", VStr "us0001"); ("time", VTime 1299822384); ("depth", lit 29.0);
     ("latitude", lit 38.322); ("longitude", lit 142.369)].

(** The ways in which the catalog request fails: no connection, a
    timeout, an error status, a body that is not JSON, or a JSON body from
    which the events cannot be extracted. *)
Definition request_fails (cal : calendar) (u : Monitoreo.upstream) : Prop :=
  u = Monitoreo.ConnectionFailed \/ u = Monitoreo.TimedOut \/
  u = Monitoreo.HttpErrorStatus \/ u = Monitoreo.InvalidJson \/
  exists data, u = Monitoreo.Body data /\
               Monitoreo.parse_features cal data = Raise.

(** A response of the catalog with one event, whose [mmi] is null. *)
Definition sample_feature : value :=
  VDict
    [("type", VStr "Feature");
     ("properties",
      VDict [("mag", lit 9.1); ("place", VStr "near the east coast of Honshu");
             ("time", lit 1299822384000); ("sig", lit 2184); ("mmi", VNone);
             ("tsunami", lit 1)]);
     ("geometry",
      VDict [("type", VStr "Point");
             ("coordinates", VList [lit 142.369; lit 38.322; lit 29.0])]);
     ("id", VStr "official20110311054624120_30")].

Definition sample_body : value :=
  VDict [("type", VStr "FeatureCollection");
         ("features", VList [sample_feature])].

(** A response whose only feature has no geometry. *)
Definition broken_body : value :=
  VDict [("features", VList [VDict [("id", VStr "x");
                                    ("properties", VDict [])]])].

(** The assessment of one event of a batch, when scoring returns one. *)
Definition assess (cal : calendar) (model : option artifacts)
    (earthquake : event) : option Monitoreo.assessed :=
  match Monitoreo.predict_tsunami_risk cal model earthquake with
  | Some risk =>
      Some {| Monitoreo.eq_data := earthquake; Monitoreo.eq_risk := risk |}
  | None => None
  end.

(** The events of a list whose probability equals [q], in their order. *)
Definition with_probability (q : Q) (l : list Monitoreo.assessed)
  : list Monitoreo.assessed :=
  List.filter (fun x => Qeq_bool (Monitoreo.sort_key x) q) l.

(** [b] does not come before [a] in the descending order. *)
Definition no_less_probable (a b : Monitoreo.assessed) : Prop :=
  Monitoreo.sort_key b <= Monitoreo.sort_key a.

Definition is_alert (alert_threshold : Q) (x : Monitoreo.assessed) : bool :=
  Qle_bool alert_threshold (Monitoreo.probability (Monitoreo.eq_risk x)).

(** An assessed event known by its id and its probability. *)
Definition rated (id : string) (p : Q) : Monitoreo.assessed :=
  {| Monitoreo.eq_data := {[ "id" := VStr id ]};
     Monitoreo.eq_risk := Monitoreo.classify_risk p |}.

(** ** Vocabulary of the further properties *)

Definition is_number (v : value) : Prop := exists x, v = VNum x.

(** A value that is neither a number nor [None]. *)
Definition non_numeric (v : value) : Prop :=
  match v with
  | VStr _ | VList _ | VDict _ | VTime _ => True
  | VNone | VNum _ => False
  end.

(** The keys that the two derivations add. *)
Definition derived_keys : list string :=
  ["ocean_proximity"; "mag_depth_ratio"; "intensity_score"; "shallow_strong"].

(** The keys of an event of the feed. *)
Definition event_keys : list string :=
  ["id"; "time"; "magnitude"; "place"; "longitude"; "latitude"; "depth";
   "sig"; "mmi"; "cdi"; "nst"; "dmin"; "gap"; "url"; "tsunami"].

(** The keys that the scoring of the monitoring page reads. *)
Definition scoring_keys : list string :=
  "time" :: map fst Monitoreo.defaults.

(** The frame of the monitoring page once the features are derived. *)
Definition page_frame (cal : calendar) (earthquake : event)
  : result (gmap string value) :=
  let input_data := Monitoreo.prepare_input earthquake in
  let* dt := Py.getitem earthquake "time" in
  let* y := Monitoreo.attr_year cal dt in
  let input_data := <["Year" := y]> input_data in
  let* mo := Monitoreo.attr_month cal dt in
  let input_data := <["Month" := mo]> input_data in
  Monitoreo.engineer input_data.

(** The probability that the artifacts give to a frame. *)
Definition score (m : artifacts) (df : gmap string value) : result Q :=
  let* X := select_columns df (feature_names m) in
  predict_proba m X.

(** The four descriptions, in the order in which the form tests them. *)
Definition all_factors : list string :=
  [factor_magnitude; factor_depth; factor_ocean; factor_intensity].

(** A classifier for the examples that always answers, and a schema that
    asks for a column nobody produces. *)
Definition constant_model (names : list string) (p : Q) : artifacts :=
  {| feature_names := names;
     predict_proba := fun _ => Ok p;
     predict := fun _ => Ok (lit 1) |}.

Definition stale_schema_model : artifacts :=
  constant_model ["magnitude"; "tsunami_history"] 0.5.

(** An event of the feed with every field, from its scalar fields. *)
Definition feed_event (id : string) (t mag lat lon depth : Q) : event :=
  list_to_map
    [("id", VStr id); ("time", VTime t); ("magnitude", lit mag);
     ("place", VStr ""); ("longitude", lit lon); ("latitude", lit lat);
     ("depth", lit depth); ("sig", lit 1000); ("mmi", lit 5); ("cdi", lit 5);
     ("nst", lit 50); ("dmin", lit 1.0); ("gap", lit 100.0); ("url", VStr "");
     ("tsunami", lit 0)].

(** The optional properties of a feature, with the number that stands
    for each when it is absent. *)
Definition optional_defaults : list (string * Q) :=
  [("sig", 1000); ("mmi", 5); ("cdi", 5); ("nst", 50); ("dmin", 1);
   ("gap", 100)].

(** The event that the fetch builds from the parts of a feature. *)
Definition event_of_parts (props : list (string * value))
    (id mag place longitude latitude depth : value) (t : Q) : event :=
  list_to_map
    [("id", id); ("time", VTime t); ("magnitude", mag); ("place", place);
     ("longitude", longitude); ("latitude", latitude); ("depth", depth);
     ("sig", default (lit 1000) (Py.assoc "sig" props));
     ("mmi", default (lit 5) (Py.assoc "mmi" props));
     ("cdi", default (lit 5) (Py.assoc "cdi" props));
     ("nst", default (lit 50) (Py.assoc "nst" props));
     ("dmin", default (lit 1.0) (Py.assoc "dmin" props));
     ("gap", default (lit 100.0) (Py.assoc "gap" props));
     ("url", default (VStr "") (Py.assoc "url" props));
     ("tsunami", default (lit 0) (Py.assoc "tsunami" props))].

(** A response with the sample feature followed by a feature that has no
    geometry. *)
Definition mixed_body : value :=
  VDict [("features",
          VList [sample_feature;
                 VDict [("id", VStr "x"); ("properties", VDict [])]])].

(** The keys of the dict [test_data] of the analysis tab. *)
Definition test_keys : list string :=
  ["magnitude"; "depth"; "latitude"; "longitude"; "cdi"; "mmi"; "sig"; "nst";
   "dmin"; "gap"; "Year"; "Month"].

(** ** Comparisons of rationals *)

Lemma Qlt_bool_iff (x y : Q) : Qlt_bool x y = true <-> x < y.
Proof.
  unfold Qlt_bool. rewrite negb_true_iff.
  destruct (Qle_bool y x) eqn:E.
  - apply Qle_bool_iff in E. split; [discriminate | intros H; lra].
  - split; [intros _ | reflexivity].
    destruct (Qlt_le_dec x y) as [H | H]; [exact H |].
    apply Qle_bool_iff in H. congruence.
Qed.

Lemma Qlt_bool_false_iff (x y : Q) : Qlt_bool x y = false <-> y <= x.
Proof.
  unfold Qlt_bool. rewrite negb_false_iff. apply Qle_bool_iff.
Qed.

Lemma Qle_bool_false_iff (x y : Q) : Qle_bool x y = false <-> y < x.
Proof.
  rewrite <- Qlt_bool_iff. unfold Qlt_bool.
  destruct (Qle_bool x y); simpl; split; congruence.
Qed.

Lemma in_risk_basin_b_iff (lat lon : Q) :
  in_risk_basin_b lat lon = true <-> in_risk_basin lat lon.
Proof.
  unfold in_risk_basin_b, in_risk_basin, in_pacific_ring, in_indian_ocean,
    in_caribbean.
  repeat (rewrite orb_true_iff || rewrite andb_true_iff
          || rewrite Qlt_bool_iff).
  tauto.
Qed.

(** ** The proximity classifier *)

Lemma and_Ok (a b : bool) : Py.and_ (Ok a) (Ok b) = Ok (a && b).
Proof. destruct a; reflexivity. Qed.

Lemma or_Ok (a b : bool) : Py.or_ (Ok a) (Ok b) = Ok (a || b).
Proof. destruct a; reflexivity. Qed.

Lemma App_proximity_finite (lat lon : Q) :
  App.calculate_ocean_proximity (lit lat) (lit lon)
  = Ok (Py.int_of_bool (in_risk_basin_b lat lon)).
Proof. reflexivity. Qed.

Lemma Monitoreo_proximity_finite (lat lon : Q) :
  Monitoreo.calculate_ocean_proximity (lit lat) (lit lon)
  = Ok (Py.int_of_bool (in_risk_basin_b lat lon)).
Proof.
  unfold Monitoreo.calculate_ocean_proximity, Py.gt, Py.lt, lit.
  cbn [num_ltb]. rewrite !and_Ok, !or_Ok, !and_Ok. reflexivity.
Qed.

Lemma int_of_bool_1 (b : bool) : Ok (Py.int_of_bool b) = Ok (lit 1) <-> b = true.
Proof. destruct b; split; (reflexivity || discriminate). Qed.

Lemma int_of_bool_0 (b : bool) : Ok (Py.int_of_bool b) = Ok (lit 0) <-> b = false.
Proof. destruct b; split; (reflexivity || discriminate). Qed.

Lemma in_risk_basin_b_false_iff (lat lon : Q) :
  in_risk_basin_b lat lon = false <-> ~ in_risk_basin lat lon.
Proof.
  rewrite <- in_risk_basin_b_iff. destruct (in_risk_basin_b lat lon); split;
    congruence.
Qed.

(** C1.  On every point of the coordinate domain both implementations of
    the proximity classifier return (they do not raise) the integer 1
    exactly when the point lies strictly inside the Pacific-Ring, the
    Indian-Ocean or the Caribbean box, and 0 exactly when it lies in none;
    (35.0, 140.0) is mapped to 1 and (0.0, 0.0) to 0. *)
Theorem ocean_proximity_boxes (lat lon : Q) :
  -90 <= lat /\ lat <= 90 ->
  -180 <= lon /\ lon <= 180 ->
  (App.calculate_ocean_proximity (lit lat) (lit lon) = Ok (lit 1)
     <-> in_risk_basin lat lon) /\
  (App.calculate_ocean_proximity (lit lat) (lit lon) = Ok (lit 0)
     <-> ~ in_risk_basin lat lon) /\
  (Monitoreo.calculate_ocean_proximity (lit lat) (lit lon) = Ok (lit 1)
     <-> in_risk_basin lat lon) /\
  (Monitoreo.calculate_ocean_proximity (lit lat) (lit lon) = Ok (lit 0)
     <-> ~ in_risk_basin lat lon) /\
  App.calculate_ocean_proximity (lit 35.0) (lit 140.0) = Ok (lit 1) /\
  App.calculate_ocean_proximity (lit 0.0) (lit 0.0) = Ok (lit 0) /\
  Monitoreo.calculate_ocean_proximity (lit 35.0) (lit 140.0) = Ok (lit 1) /\
  Monitoreo.calculate_ocean_proximity (lit 0.0) (lit 0.0) = Ok (lit 0).
Proof.
  intros _ _.
  rewrite App_proximity_finite, Monitoreo_proximity_finite.
  rewrite int_of_bool_1, int_of_bool_0, in_risk_basin_b_iff,
    in_risk_basin_b_false_iff.
  repeat split; auto.
Qed.

Lemma ocean_proximity_boxes_witness :
  (-90 <= 35 /\ 35 <= 90) /\ (-180 <= 140 /\ 140 <= 180) /\
  (App.calculate_ocean_proximity (lit 35) (lit 140) = Ok (lit 1)
     <-> in_risk_basin 35 140).
Proof.
  assert (Hlat : -90 <= 35 /\ 35 <= 90) by (split; lra).
  assert (Hlon : -180 <= 140 /\ 140 <= 180) by (split; lra).
  split; [exact Hlat | split; [exact Hlon |]].
  exact (proj1 (ocean_proximity_boxes 35 140 Hlat Hlon)).
Defined.

(** C9.  On every pair of scalars, finite or not, the classifier of the
    form (written with [&] and [|]) and the classifier of the monitoring
    page (written with [and] and [or]) return the same result. *)
Theorem ocean_proximity_implementations_agree (lat lon : num) :
  App.calculate_ocean_proximity (VNum lat) (VNum lon)
  = Monitoreo.calculate_ocean_proximity (VNum lat) (VNum lon).
Proof.
  unfold App.calculate_ocean_proximity, Monitoreo.calculate_ocean_proximity,
    Py.gt, Py.lt, lit.
  cbn [bind Py.band Py.bor].
  rewrite !and_Ok, !or_Ok, !and_Ok. reflexivity.
Qed.

(** Off the scalars the two differ: with a latitude outside every box and
    a longitude that is [None], [and] never evaluates the comparison of the
    longitude, while [&] does and raises. *)
Example ocean_proximity_none_longitude :
  App.calculate_ocean_proximity (lit 80) VNone = Raise /\
  Monitoreo.calculate_ocean_proximity (lit 80) VNone = Ok (lit 0).
Proof. split; reflexivity. Qed.

(** ** Feature derivation on finite events *)

Lemma getitem_Some (d : gmap string value) (k : string) (v : value) :
  d !! k = Some v -> Py.getitem d k = Ok v.
Proof. intros H. unfold Py.getitem. rewrite H. reflexivity. Qed.

Lemma is_zero_Fin (q : Q) : ~ q == 0 -> is_zero (Fin q) = false.
Proof.
  intros H. simpl. destruct (Qeq_bool q 0) eqn:E; [| reflexivity].
  apply Qeq_bool_iff in E. contradiction.
Qed.

Lemma get_insert_ne (d : gmap string value) (k k' : string) (v dflt : value) :
  k' <> k -> Py.get (<[k' := v]> d) k dflt = Py.get d k dflt.
Proof. intros H. unfold Py.get. rewrite lookup_insert_ne by exact H. reflexivity. Qed.

Lemma add_finite (a b : Q) : Py.add (lit a) (lit b) = Ok (lit (a + b)).
Proof. reflexivity. Qed.

Lemma mul_finite (a b : Q) : Py.mul (lit a) (lit b) = Ok (lit (a * b)).
Proof. reflexivity. Qed.

Lemma lt_finite (a b : Q) : Py.lt (lit a) (lit b) = Ok (Qlt_bool a b).
Proof. reflexivity. Qed.

Lemma gt_finite (a b : Q) : Py.gt (lit a) (lit b) = Ok (Qlt_bool b a).
Proof. reflexivity. Qed.

Lemma ge_finite (a b : Q) : Py.ge (lit a) (lit b) = Ok (Qle_bool b a).
Proof. reflexivity. Qed.

Lemma div_finite (a b : Q) :
  ~ b == 0 -> Py.div (lit a) (lit b) = Ok (lit (a / b)).
Proof. intros H. unfold Py.div, lit. rewrite (is_zero_Fin _ H). reflexivity. Qed.

Lemma pd_div_finite (a b : Q) :
  ~ b == 0 -> Pd.div (lit a) (lit b) = Ok (lit (a / b)).
Proof.
  intros H. unfold Pd.div, lit, num_div_ieee. rewrite (is_zero_Fin _ H).
  reflexivity.
Qed.

Lemma band_Ok (a b : bool) : Py.band (Ok a) (Ok b) = Ok (a && b).
Proof. reflexivity. Qed.

Lemma hundred_nonzero : ~ 100 == 0.
Proof. intros H. discriminate H. Qed.

(** One step of symbolic execution: resolve the lookups that the
    hypotheses decide, run the operations on finite numbers, and enter the
    continuation of a [let*] whose head has returned. *)
Ltac lookups :=
  repeat first
    [ rewrite lookup_insert_ne by discriminate
    | rewrite get_insert_ne by discriminate
    | erewrite getitem_Some by (rewrite ?lookup_insert_ne by discriminate;
                                eassumption) ].

Ltac run :=
  repeat (progress
            (lookups;
             rewrite ?add_finite, ?mul_finite, ?lt_finite, ?gt_finite,
               ?ge_finite, ?band_Ok, ?and_Ok,
               ?(div_finite _ _ hundred_nonzero),
               ?(pd_div_finite _ _ hundred_nonzero);
             cbn [bind])).

Lemma App_engineer_features_finite (data : gmap string value)
    (lat lon mag depth mmi sig : Q) :
  finite_event data lat lon mag depth mmi sig ->
  ~ depth + 1 == 0 ->
  App.engineer_features data = Ok (engineered data lat lon mag depth mmi sig).
Proof.
  intros (Hlat & Hlon & Hmag & Hdep & Hmmi & Hsig) Hnz.
  unfold App.engineer_features.
  run. rewrite App_proximity_finite. run.
  rewrite (div_finite _ _ Hnz). run.
  rewrite Hmmi, Hsig. run. reflexivity.
Qed.

Lemma Monitoreo_engineer_finite (df : gmap string value)
    (lat lon mag depth mmi sig : Q) :
  finite_frame df lat lon mag depth mmi sig ->
  ~ depth + 1 == 0 ->
  Monitoreo.engineer df = Ok (engineered df lat lon mag depth mmi sig).
Proof.
  intros (Hlat & Hlon & Hmag & Hdep & Hmmi & Hsig) Hnz.
  unfold Monitoreo.engineer.
  run. rewrite Monitoreo_proximity_finite. run.
  rewrite (pd_div_finite _ _ Hnz). run. reflexivity.
Qed.

Lemma finite_frame_event (data : gmap string value)
    (lat lon mag depth mmi sig : Q) :
  finite_frame data lat lon mag depth mmi sig ->
  finite_event data lat lon mag depth mmi sig.
Proof.
  intros (Hlat & Hlon & Hmag & Hdep & Hmmi & Hsig).
  unfold finite_event, Py.get. rewrite Hmmi, Hsig. auto 10.
Qed.

Lemma feature_App_finite (data : gmap string value)
    (lat lon mag depth mmi sig : Q) (k : string) :
  finite_frame data lat lon mag depth mmi sig ->
  ~ depth + 1 == 0 ->
  feature App.engineer_features data k
  = engineered data lat lon mag depth mmi sig !! k.
Proof.
  intros H Hnz. unfold feature.
  rewrite (App_engineer_features_finite _ _ _ _ _ _ _
             (finite_frame_event _ _ _ _ _ _ _ H) Hnz).
  reflexivity.
Qed.

Lemma feature_Monitoreo_finite (data : gmap string value)
    (lat lon mag depth mmi sig : Q) (k : string) :
  finite_frame data lat lon mag depth mmi sig ->
  ~ depth + 1 == 0 ->
  feature Monitoreo.engineer data k
  = engineered data lat lon mag depth mmi sig !! k.
Proof.
  intros H Hnz. unfold feature.
  rewrite (Monitoreo_engineer_finite _ _ _ _ _ _ _ H Hnz). reflexivity.
Qed.

Lemma engineered_shallow_strong (data : gmap string value)
    (lat lon mag depth mmi sig : Q) :
  engineered data lat lon mag depth mmi sig !! "shallow_strong"
  = Some (Py.int_of_bool (shallow_strong_b mag depth)).
Proof. unfold engineered. apply lookup_insert_eq. Qed.


Lemma engineered_ocean_proximity (data : gmap string value)
    (lat lon mag depth mmi sig : Q) :
  engineered data lat lon mag depth mmi sig !! "ocean_proximity"
  = Some (Py.int_of_bool (in_risk_basin_b lat lon)).
Proof.
  unfold engineered. rewrite !lookup_insert_ne by discriminate.
  apply lookup_insert_eq.
Qed.

Lemma shallow_strong_b_iff (mag depth : Q) :
  shallow_strong_b mag depth = true <-> depth < 70 /\ 7.5 < mag.
Proof.
  unfold shallow_strong_b. rewrite andb_true_iff, !Qlt_bool_iff. tauto.
Qed.

Lemma some_int_of_bool_1 (b : bool) :
  Some (Py.int_of_bool b) = Some (lit 1) <-> b = true.
Proof. destruct b; split; (reflexivity || discriminate). Qed.

Lemma some_int_of_bool_0 (b : bool) :
  Some (Py.int_of_bool b) = Some (lit 0) <-> b = false.
Proof. destruct b; split; (reflexivity || discriminate). Qed.

Lemma japan_2011_finite :
  finite_frame japan_2011 38.322 142.369 9.1 29.0 7 1000.
Proof. repeat split; reflexivity. Qed.

(** C2.  For an event with finite fields, both derivations return, and the
    feature [shallow_strong] they store is 1 exactly when [depth < 70] and
    [magnitude > 7.5], and 0 exactly otherwise; it is 0 when the depth is
    70 or when the magnitude is 7.5. *)
Theorem shallow_strong_rule (data : gmap string value)
    (lat lon mag depth mmi sig : Q) :
  finite_frame data lat lon mag depth mmi sig ->
  ~ depth + 1 == 0 ->
  let app := feature App.engineer_features data "shallow_strong" in
  let page := feature Monitoreo.engineer data "shallow_strong" in
  (app = Some (lit 1) <-> depth < 70 /\ 7.5 < mag) /\
  (app = Some (lit 0) <-> ~ (depth < 70 /\ 7.5 < mag)) /\
  (page = Some (lit 1) <-> depth < 70 /\ 7.5 < mag) /\
  (page = Some (lit 0) <-> ~ (depth < 70 /\ 7.5 < mag)) /\
  (depth == 70 \/ mag == 7.5 -> app = Some (lit 0) /\ page = Some (lit 0)).
Proof.
  intros H Hnz app page. subst app page.
  rewrite (feature_App_finite _ _ _ _ _ _ _ _ H Hnz),
    (feature_Monitoreo_finite _ _ _ _ _ _ _ _ H Hnz),
    engineered_shallow_strong.
  rewrite some_int_of_bool_1, some_int_of_bool_0.
  pose proof (shallow_strong_b_iff mag depth) as Hs.
  destruct (shallow_strong_b mag depth).
  - assert (depth < 70 /\ 7.5 < mag) as [Hd Hm] by (apply Hs; reflexivity).
    repeat split; intros; try congruence; try tauto; lra.
  - assert (~ (depth < 70 /\ 7.5 < mag)) as Hn
      by (intros Hp; apply Hs in Hp; discriminate).
    repeat split; intros; try congruence; try tauto.
Qed.

Lemma shallow_strong_rule_witness :
  finite_frame japan_2011 38.322 142.369 9.1 29.0 7 1000 /\
  ~ 29.0 + 1 == 0 /\
  (feature App.engineer_features japan_2011 "shallow_strong" = Some (lit 1)
     <-> 29.0 < 70 /\ 7.5 < 9.1).
Proof.
  assert (Hnz : ~ 29.0 + 1 == 0) by (intros E; discriminate E).
  split; [exact japan_2011_finite | split; [exact Hnz |]].
  exact (proj1 (shallow_strong_rule japan_2011 _ _ _ _ _ _
                  japan_2011_finite Hnz)).
Defined.

(** ** The ratio of magnitude to depth *)



Lemma tohoku_at_finite (depth : Q) :
  finite_frame (tohoku_at depth) 38.322 142.369 9.1 depth 7 1000.
Proof. repeat split; reflexivity. Qed.

Lemma micro_at_finite (depth : Q) :
  finite_frame (micro_at depth) 0.0 0.0 (-1) depth 1 0.
Proof. repeat split; reflexivity. Qed.




(** ** The two tier mappers *)

Ltac by_cases_on c := let E := fresh "E" in destruct c eqn:E.

Ltac tier_cases p :=
  unfold Monitoreo.classify_risk;
  by_cases_on (Qlt_bool p 0.2);
    [| by_cases_on (Qlt_bool p 0.4);
       [| by_cases_on (Qlt_bool p 0.6); [| by_cases_on (Qlt_bool p 0.8)]]].

Lemma classify_risk_probability (p : Q) :
  Monitoreo.probability (Monitoreo.classify_risk p) = p.
Proof. tier_cases p; reflexivity. Qed.

Lemma predict_tsunami_risk_classifies cal model earthquake r :
  Monitoreo.predict_tsunami_risk cal model earthquake = Some r ->
  r = Monitoreo.classify_risk (Monitoreo.probability r).
Proof.
  intros H. unfold Monitoreo.predict_tsunami_risk in H.
  destruct model as [m |]; [| discriminate].
  unfold try_except in H.
  repeat match type of H with
         | context [bind ?a _] => destruct a; cbn [bind] in H
         end; try discriminate.
  injection H as <-. rewrite classify_risk_probability. reflexivity.
Qed.

(** C3.  The five tiers of the monitoring page split the probabilities
    into five consecutive intervals that neither overlap nor leave a gap:
    below 0.2 Very-Low, from 0.2 Low, from 0.4 Moderate, from 0.6 High,
    from 0.8 Very-High.  Every probability gets one tier, with the colour
    and the emblem of that tier; a probability on a boundary gets the
    higher tier; and every assessment that [predict_tsunami_risk] returns
    is built by this mapper. *)
Theorem five_tier_partition (p : Q) :
  let r := Monitoreo.classify_risk p in
  Monitoreo.probability r = p /\
  (Monitoreo.risk_level r = "Muy Bajo" <-> p < 0.2) /\
  (Monitoreo.risk_level r = "Bajo" <-> 0.2 <= p /\ p < 0.4) /\
  (Monitoreo.risk_level r = "Moderado" <-> 0.4 <= p /\ p < 0.6) /\
  (Monitoreo.risk_level r = "Alto" <-> 0.6 <= p /\ p < 0.8) /\
  (Monitoreo.risk_level r = "Muy Alto" <-> 0.8 <= p) /\
  (Monitoreo.risk_level r = "Muy Bajo" ->
     Monitoreo.risk_color r = "#10b981" /\ Monitoreo.risk_emoji r = "🟢") /\
  (Monitoreo.risk_level r = "Bajo" ->
     Monitoreo.risk_color r = "#84cc16" /\ Monitoreo.risk_emoji r = "🟢") /\
  (Monitoreo.risk_level r = "Moderado" ->
     Monitoreo.risk_color r = "#f59e0b" /\ Monitoreo.risk_emoji r = "🟡") /\
  (Monitoreo.risk_level r = "Alto" ->
     Monitoreo.risk_color r = "#f97316" /\ Monitoreo.risk_emoji r = "🟠") /\
  (Monitoreo.risk_level r = "Muy Alto" ->
     Monitoreo.risk_color r = "#ef4444" /\ Monitoreo.risk_emoji r = "🔴") /\
  Monitoreo.risk_level (Monitoreo.classify_risk 0.2) = "Bajo" /\
  Monitoreo.risk_level (Monitoreo.classify_risk 0.4) = "Moderado" /\
  Monitoreo.risk_level (Monitoreo.classify_risk 0.6) = "Alto" /\
  Monitoreo.risk_level (Monitoreo.classify_risk 0.8) = "Muy Alto" /\
  (forall cal model earthquake r',
     Monitoreo.predict_tsunami_risk cal model earthquake = Some r' ->
     r' = Monitoreo.classify_risk (Monitoreo.probability r')).
Proof.
  cbv zeta.
  split; [apply classify_risk_probability |].
  split; [| split; [| split; [| split; [| split]]]].
  1-5: tier_cases p; cbn [Monitoreo.risk_level];
     rewrite ?Qlt_bool_iff, ?Qlt_bool_false_iff in *;
     (split; [intros; first [discriminate | lra | split; lra]
             | intros; first [reflexivity | lra]]).
  repeat split.
  1-10: revert H; tier_cases p; cbn; intros; first [reflexivity | discriminate].
  apply predict_tsunami_risk_classifies.
Qed.

Lemma eq_num_int_of_bool (b : bool) :
  Py.eq_num (Py.int_of_bool b) (lit 1) = b.
Proof. destruct b; reflexivity. Qed.

Lemma App_predict_tsunami_finite (m : artifacts) (data : gmap string value)
    (lat lon mag depth mmi sig p : Q) (X : list value) (c : value) :
  finite_event data lat lon mag depth mmi sig ->
  ~ depth + 1 == 0 ->
  select_columns (engineered data lat lon mag depth mmi sig) (feature_names m)
    = Ok X ->
  predict_proba m X = Ok p ->
  predict m X = Ok c ->
  App.predict_tsunami (Some m) data
  = Ok (Some
          {| App.probability := p;
             App.prediction_label := c;
             App.risk_level :=
               if Qle_bool 0.7 p then "🔴 Alto"
               else if Qle_bool 0.3 p then "🟡 Moderado" else "🟢 Bajo";
             App.risk_color :=
               if Qle_bool 0.7 p then "#dc3545"
               else if Qle_bool 0.3 p then "#ffc107" else "#28a745";
             App.risk_factors :=
               (if Qle_bool 7.5 mag then [factor_magnitude] else [])
                 ++ (if Qlt_bool depth 70 then [factor_depth] else [])
                 ++ (if in_risk_basin_b lat lon then [factor_ocean] else [])
                 ++ (if Qle_bool 6 mmi then [factor_intensity] else []) |}).
Proof.
  intros F Hnz HX Hp Hc. unfold App.predict_tsunami.
  rewrite (App_engineer_features_finite _ _ _ _ _ _ _ F Hnz). cbn [bind].
  rewrite HX. cbn [bind]. rewrite Hp, Hc. cbn [bind].
  destruct F as (Hlat & Hlon & Hmag & Hdep & Hmmi & Hsig).
  run.
  rewrite (getitem_Some _ _ _ (engineered_ocean_proximity _ _ _ _ _ _ _)).
  cbn [bind]. rewrite eq_num_int_of_bool, Hmmi. run.
  unfold factor_magnitude, factor_depth, factor_ocean, factor_intensity.
  destruct (Qle_bool 0.7 p), (Qle_bool 0.3 p), (Qle_bool 7.5 mag),
    (Qlt_bool depth 70), (in_risk_basin_b lat lon), (Qle_bool 6 mmi);
    reflexivity.
Qed.

(** C4.  For an event with finite fields on which the scaler and the
    classifier answer the probability [p], the form's prediction returns
    an assessment with that probability whose tier is High exactly when
    [p >= 0.7], Moderate exactly when [0.3 <= p < 0.7] and Low exactly when
    [p < 0.3], with the colour of the tier; its list of risk factors holds
    exactly the descriptions of the rules that trigger: magnitude at least
    7.5, depth below 70, derived [ocean_proximity] equal to 1, and [mmi] at
    least 6. *)
Theorem three_tier_and_factors (m : artifacts) (data : gmap string value)
    (lat lon mag depth mmi sig p : Q) (X : list value) (c : value) :
  finite_event data lat lon mag depth mmi sig ->
  ~ depth + 1 == 0 ->
  select_columns (engineered data lat lon mag depth mmi sig) (feature_names m)
    = Ok X ->
  predict_proba m X = Ok p ->
  predict m X = Ok c ->
  exists r : App.prediction,
    App.predict_tsunami (Some m) data = Ok (Some r) /\
    App.probability r = p /\
    (App.risk_level r = "🔴 Alto" <-> 0.7 <= p) /\
    (App.risk_level r = "🟡 Moderado" <-> 0.3 <= p /\ p < 0.7) /\
    (App.risk_level r = "🟢 Bajo" <-> p < 0.3) /\
    (App.risk_level r = "🔴 Alto" -> App.risk_color r = "#dc3545") /\
    (App.risk_level r = "🟡 Moderado" -> App.risk_color r = "#ffc107") /\
    (App.risk_level r = "🟢 Bajo" -> App.risk_color r = "#28a745") /\
    (forall d : string,
       In d (App.risk_factors r) <->
       (d = factor_magnitude /\ 7.5 <= mag) \/
       (d = factor_depth /\ depth < 70) \/
       (d = factor_ocean /\
        feature App.engineer_features data "ocean_proximity" = Some (lit 1)) \/
       (d = factor_intensity /\ 6 <= mmi)).
Proof.
  intros F Hnz HX Hp Hc.
  eexists. split; [exact (App_predict_tsunami_finite _ _ _ _ _ _ _ _ _ _ _
                            F Hnz HX Hp Hc) |].
  cbn [App.probability App.risk_level App.risk_color App.risk_factors].
  split; [reflexivity |].
  assert (Hprox : feature App.engineer_features data "ocean_proximity"
                  = Some (lit 1) <-> in_risk_basin_b lat lon = true).
  { unfold feature.
    rewrite (App_engineer_features_finite _ _ _ _ _ _ _ F Hnz),
      engineered_ocean_proximity.
    apply some_int_of_bool_1. }
  split; [| split; [| split; [| split; [| split; [| split]]]]].
  1-6: by_cases_on (Qle_bool 0.7 p); [| by_cases_on (Qle_bool 0.3 p)];
       rewrite ?Qle_bool_iff, ?Qle_bool_false_iff in *;
       (split || idtac); intros;
       first [reflexivity | discriminate | lra | split; lra].
  intros d. rewrite Hprox, !in_app_iff.
  by_cases_on (Qle_bool 7.5 mag); by_cases_on (Qlt_bool depth 70);
    by_cases_on (in_risk_basin_b lat lon); by_cases_on (Qle_bool 6 mmi);
    rewrite ?Qle_bool_iff, ?Qle_bool_false_iff, ?Qlt_bool_iff,
      ?Qlt_bool_false_iff in *;
    cbn [In];
    (split;
     [ intros H; repeat destruct H as [H | H]; subst; auto 10; contradiction
     | intros [[-> H] | [[-> H] | [[-> H] | [-> H]]]];
       first [tauto | discriminate | lra ] ]).
Qed.

Lemma three_tier_and_factors_witness :
  finite_event japan_2011 38.322 142.369 9.1 29.0 7 1000 /\
  ~ 29.0 + 1 == 0 /\
  exists r : App.prediction,
    App.predict_tsunami (Some sample_model) japan_2011 = Ok (Some r) /\
    App.probability r = 0.9 /\
    (App.risk_level r = "🔴 Alto" <-> 0.7 <= 0.9).
Proof.
  assert (F : finite_event japan_2011 38.322 142.369 9.1 29.0 7 1000)
    by (repeat split; reflexivity).
  assert (Hnz : ~ 29.0 + 1 == 0) by (intros E; discriminate E).
  split; [exact F | split; [exact Hnz |]].
  destruct (three_tier_and_factors sample_model japan_2011
              38.322 142.369 9.1 29.0 7 1000 0.9 _ _ F Hnz
              eq_refl eq_refl eq_refl)
    as (r & Hr & Hp & Hhigh & _).
  exists r. split; [exact Hr | split; [exact Hp | exact Hhigh]].
Defined.

(** ** Missing fields on the monitoring page *)

Lemma get_insert_eq (d : gmap string value) (k : string) (v dflt : value) :
  Py.get (<[k := v]> d) k dflt = v.
Proof. unfold Py.get. rewrite lookup_insert_eq. reflexivity. Qed.

Lemma get_missing (earthquake : event) (k : string) (dflt : value) :
  missing_field earthquake k ->
  (if Monitoreo.is_missing (Py.get earthquake k dflt) then dflt
   else Py.get earthquake k dflt) = dflt.
Proof.
  unfold Py.get. intros [H | [H | H]]; rewrite H; cbn.
  - destruct (Monitoreo.is_missing dflt); reflexivity.
  - reflexivity.
  - reflexivity.
Qed.

Lemma prepare_input_default (earthquake : event) (k : string) (dflt : value) :
  In (k, dflt) mandatory_defaults ->
  missing_field earthquake k ->
  Monitoreo.prepare_input earthquake
  = Monitoreo.prepare_input (<[k := dflt]> earthquake).
Proof.
  intros Hin Hmiss.
  unfold Monitoreo.prepare_input, Monitoreo.defaults.
  cbn [foldl fst snd].
  cbn [In mandatory_defaults] in Hin.
  destruct Hin as [E | [E | [E | [E | []]]]]; injection E as <- <-;
    rewrite get_insert_eq, !get_insert_ne by discriminate;
    rewrite (get_missing _ _ _ Hmiss); reflexivity.
Qed.

(** C5, as amended.  When a mandatory field of an event is absent, [None]
    or NaN, the monitoring page does not reject the event: the preparation
    of the input puts the field's default in its place (magnitude 5.0,
    depth 10.0, latitude 0.0, longitude 0.0), and the event is assessed
    exactly as the same event carrying that default. *)
Theorem missing_mandatory_field_defaulted (cal : calendar)
    (model : option artifacts) (earthquake : event)
    (k : string) (dflt : value) :
  In (k, dflt) mandatory_defaults ->
  missing_field earthquake k ->
  Monitoreo.prepare_input earthquake !! k = Some dflt /\
  Monitoreo.predict_tsunami_risk cal model earthquake
  = Monitoreo.predict_tsunami_risk cal model (<[k := dflt]> earthquake).
Proof.
  intros Hin Hmiss. split.
  - rewrite (prepare_input_default _ _ _ Hin Hmiss).
    unfold Monitoreo.prepare_input, Monitoreo.defaults. cbn [foldl fst snd].
    cbn [In mandatory_defaults] in Hin.
    destruct Hin as [E | [E | [E | [E | []]]]]; injection E as <- <-;
      rewrite !lookup_insert_ne by discriminate;
      rewrite lookup_insert_eq, get_insert_eq; reflexivity.
  - unfold Monitoreo.predict_tsunami_risk.
    rewrite <- (prepare_input_default _ _ _ Hin Hmiss).
    assert (Ht : Py.getitem (<[k := dflt]> earthquake) "time"
                 = Py.getitem earthquake "time").
    { unfold Py.getitem. rewrite lookup_insert_ne; [reflexivity |].
      cbn [In mandatory_defaults] in Hin.
      destruct Hin as [E | [E | [E | [E | []]]]]; injection E as <- <-;
        discriminate. }
    rewrite Ht. reflexivity.
Qed.

Lemma missing_mandatory_field_defaulted_witness :
  In ("magnitude", lit 5.0) mandatory_defaults /\
  missing_field quake_without_magnitude "magnitude" /\
  Monitoreo.prepare_input quake_without_magnitude !! "magnitude"
    = Some (lit 5.0).
Proof.
  assert (Hin : In ("magnitude", lit 5.0) mandatory_defaults)
    by (left; reflexivity).
  assert (Hmiss : missing_field quake_without_magnitude "magnitude")
    by (left; reflexivity).
  split; [exact Hin | split; [exact Hmiss |]].
  exact (proj1 (missing_mandatory_field_defaulted
                  sample_calendar (Some sample_model)
                  quake_without_magnitude "magnitude" (lit 5.0) Hin Hmiss)).
Defined.

(** C5, as stated, fails: an event without a magnitude is not rejected.
    Its input gets the magnitude 5.0 and the page returns an assessment. *)
Lemma missing_magnitude_not_rejected :
  quake_without_magnitude !! "magnitude" = None /\
  Monitoreo.prepare_input quake_without_magnitude !! "magnitude"
    = Some (lit 5.0) /\
  Monitoreo.predict_tsunami_risk sample_calendar (Some sample_model)
                                 quake_without_magnitude
    = Some (Monitoreo.classify_risk 0.1) /\
  Monitoreo.predict_tsunami_risk sample_calendar (Some sample_model)
                                 quake_without_magnitude
    <> None.
Proof.
  assert (H : Monitoreo.predict_tsunami_risk sample_calendar
                (Some sample_model) quake_without_magnitude
              = Some (Monitoreo.classify_risk 0.1)) by (vm_compute; reflexivity).
  split; [reflexivity | split; [vm_compute; reflexivity | split; [exact H |]]].
  rewrite H. discriminate.
Qed.

(** ** The fetch and the summary of an empty batch *)

Lemma fetch_on_failure (cal : calendar) (catalog : Z -> Q -> Monitoreo.upstream)
    (minutes : Z) (min_magnitude : Q) :
  request_fails cal (catalog minutes min_magnitude) ->
  Monitoreo.fetch_recent_earthquakes cal catalog minutes min_magnitude = [].
Proof.
  unfold Monitoreo.fetch_recent_earthquakes.
  intros [H | [H | [H | [H | (data & H & Hparse)]]]]; rewrite H; cbn;
    try reflexivity.
  rewrite Hparse. reflexivity.
Qed.

(** C6.  Whatever the window and the magnitude floor, when the request to
    the catalog fails (no connection, timeout, error status, unreadable
    body, or a body from which the events cannot be extracted) the fetch
    returns the empty list, as a value and not as an exception; and on the
    empty list the summary shows a total of 0, the maximum magnitude "N/A"
    and 0 alerts, and the list of active alerts is empty. *)
Theorem failed_fetch_gives_empty_summary (cal : calendar)
    (model : option artifacts) (alert_threshold : Q)
    (format_1f : num -> string) (catalog : Z -> Q -> Monitoreo.upstream)
    (minutes : Z) (min_magnitude : Q) :
  request_fails cal (catalog minutes min_magnitude) ->
  let earthquakes :=
    Monitoreo.fetch_recent_earthquakes cal catalog minutes min_magnitude in
  earthquakes = [] /\
  Monitoreo.summary_metrics cal model alert_threshold format_1f earthquakes
    = Ok {| Monitoreo.total := 0; Monitoreo.max_mag := "N/A";
            Monitoreo.alerts := 0 |} /\
  Monitoreo.high_risk cal model alert_threshold earthquakes = [] /\
  Monitoreo.summary_metrics cal model alert_threshold format_1f []
    = Ok {| Monitoreo.total := 0; Monitoreo.max_mag := "N/A";
            Monitoreo.alerts := 0 |}.
Proof.
  intros H earthquakes. subst earthquakes.
  rewrite (fetch_on_failure _ _ _ _ H).
  repeat split; reflexivity.
Qed.

Lemma failed_fetch_gives_empty_summary_witness :
  request_fails sample_calendar Monitoreo.TimedOut /\
  Monitoreo.fetch_recent_earthquakes
    sample_calendar (fun _ _ => Monitoreo.TimedOut) 60 5.0 = [] /\
  request_fails sample_calendar (Monitoreo.Body broken_body) /\
  Monitoreo.fetch_recent_earthquakes
    sample_calendar (fun _ _ => Monitoreo.Body broken_body) 60 5.0 = [].
Proof.
  assert (H1 : request_fails sample_calendar Monitoreo.TimedOut)
    by (right; left; reflexivity).
  assert (H2 : request_fails sample_calendar (Monitoreo.Body broken_body))
    by (do 4 right; exists broken_body; split; reflexivity).
  split; [exact H1 | split; [| split; [exact H2 |]]].
  - exact (proj1 (failed_fetch_gives_empty_summary
                    sample_calendar (Some sample_model) 0.3 (fun _ => "")
                    (fun _ _ => Monitoreo.TimedOut) 60 5.0 H1)).
  - exact (proj1 (failed_fetch_gives_empty_summary
                    sample_calendar (Some sample_model) 0.3 (fun _ => "")
                    (fun _ _ => Monitoreo.Body broken_body) 60 5.0 H2)).
Defined.

(** A well-formed response is not lost: the sample body yields its event,
    with the null [mmi] kept as [None] for the scoring step to replace. *)
Example fetch_sample_body :
  exists earthquake,
    Monitoreo.fetch_recent_earthquakes
      sample_calendar (fun _ _ => Monitoreo.Body sample_body) 60 5.0
    = [earthquake] /\
    earthquake !! "magnitude" = Some (lit 9.1) /\
    earthquake !! "mmi" = Some VNone /\
    earthquake !! "nst" = Some (lit 50) /\
    earthquake !! "time" = Some (VTime (1299822384000 / 1000)).
Proof. eexists. repeat split; vm_compute; reflexivity. Qed.

(** ** The batch: assessment, sort and alerts *)

Section Batch.

Variable cal : calendar.
Variable model : option artifacts.

Lemma analyse_from (acc : list Monitoreo.assessed) (earthquakes : list event) :
  foldl (fun earthquakes_with_risk eq =>
           match Monitoreo.predict_tsunami_risk cal model eq with
           | Some risk =>
               earthquakes_with_risk
                 ++ [{| Monitoreo.eq_data := eq; Monitoreo.eq_risk := risk |}]
           | None => earthquakes_with_risk
           end) acc earthquakes
  = acc ++ omap (assess cal model) earthquakes.
Proof.
  revert acc. induction earthquakes as [| eq rest IH]; intros acc; cbn.
  - symmetry. apply app_nil_r.
  - rewrite IH. unfold assess.
    destruct (Monitoreo.predict_tsunami_risk cal model eq); cbn.
    + rewrite <- app_assoc. reflexivity.
    + reflexivity.
Qed.

Lemma analyse_omap (earthquakes : list event) :
  Monitoreo.analyse cal model earthquakes = omap (assess cal model) earthquakes.
Proof. unfold Monitoreo.analyse. apply analyse_from. Qed.

End Batch.

Lemma insert_desc_Permutation (x : Monitoreo.assessed) l :
  Permutation (Monitoreo.insert_desc x l) (x :: l).
Proof.
  induction l as [| y l IH]; cbn.
  - reflexivity.
  - destruct (Qle_bool (Monitoreo.sort_key y) (Monitoreo.sort_key x)).
    + reflexivity.
    + rewrite IH. apply perm_swap.
Qed.

Lemma sort_desc_Permutation l : Permutation (Monitoreo.sort_desc l) l.
Proof.
  induction l as [| x l IH]; cbn.
  - reflexivity.
  - rewrite insert_desc_Permutation. apply perm_skip, IH.
Qed.

Lemma insert_desc_sorted (x : Monitoreo.assessed) l :
  StronglySorted no_less_probable l ->
  StronglySorted no_less_probable (Monitoreo.insert_desc x l).
Proof.
  induction 1 as [| y l Hs IH Hall]; cbn.
  - constructor; [constructor | constructor].
  - destruct (Qle_bool (Monitoreo.sort_key y) (Monitoreo.sort_key x)) eqn:E.
    + apply Qle_bool_iff in E.
      constructor; [constructor; assumption |].
      constructor; [exact E |].
      eapply Forall_impl; [exact Hall |].
      intros z Hz. unfold no_less_probable in *. lra.
    + apply Qle_bool_false_iff in E.
      constructor; [exact IH |].
      rewrite (insert_desc_Permutation x l).
      constructor; [| exact Hall].
      unfold no_less_probable. lra.
Qed.

Lemma sort_desc_sorted l : StronglySorted no_less_probable (Monitoreo.sort_desc l).
Proof.
  induction l as [| x l IH]; cbn.
  - constructor.
  - apply insert_desc_sorted, IH.
Qed.

Lemma insert_desc_stable (q : Q) (x : Monitoreo.assessed) l :
  with_probability q (Monitoreo.insert_desc x l)
  = with_probability q (x :: l).
Proof.
  unfold with_probability.
  induction l as [| y l IH]; cbn.
  - reflexivity.
  - destruct (Qle_bool (Monitoreo.sort_key y) (Monitoreo.sort_key x)) eqn:E.
    + reflexivity.
    + apply Qle_bool_false_iff in E. cbn. rewrite IH. cbn.
      destruct (Qeq_bool (Monitoreo.sort_key x) q) eqn:Ex; [| reflexivity].
      destruct (Qeq_bool (Monitoreo.sort_key y) q) eqn:Ey; [| reflexivity].
      apply Qeq_bool_iff in Ex, Ey. lra.
Qed.

Lemma sort_desc_stable (q : Q) l :
  with_probability q (Monitoreo.sort_desc l) = with_probability q l.
Proof.
  induction l as [| x l IH]; cbn [Monitoreo.sort_desc].
  - reflexivity.
  - rewrite insert_desc_stable. unfold with_probability in *.
    cbn [List.filter]. rewrite IH. reflexivity.
Qed.

(** Two ties, each kept in arrival order. *)
Example sort_desc_keeps_ties :
  Monitoreo.sort_desc
    [rated "a" 0.5; rated "b" 0.9; rated "c" 0.5; rated "d" 0.9; rated "e" 0.7]
  = [rated "b" 0.9; rated "d" 0.9; rated "e" 0.7; rated "a" 0.5; rated "c" 0.5].
Proof. reflexivity. Qed.

(** C7.  For every batch, the list of assessed events is the list of the
    events that could be scored, taken in the order of the input, and then
    sorted: it is in descending order of probability, it holds the same
    events, and for each probability the events that have it appear in the
    same relative order as in the input. *)
Theorem assessed_events_sorted_stably (cal : calendar)
    (model : option artifacts) (earthquakes : list event) :
  let out := Monitoreo.earthquakes_with_risk cal model earthquakes in
  let input := omap (assess cal model) earthquakes in
  StronglySorted no_less_probable out /\
  Permutation out input /\
  (forall q : Q, with_probability q out = with_probability q input).
Proof.
  cbv zeta. unfold Monitoreo.earthquakes_with_risk.
  rewrite analyse_omap. split; [| split].
  - apply sort_desc_sorted.
  - apply sort_desc_Permutation.
  - intros q. apply sort_desc_stable.
Qed.

Lemma filter_insert_desc_length (f : Monitoreo.assessed -> bool) x l :
  length (List.filter f (Monitoreo.insert_desc x l))
  = length (List.filter f (x :: l)).
Proof.
  induction l as [| y l IH]; cbn [Monitoreo.insert_desc].
  - reflexivity.
  - destruct (Qle_bool (Monitoreo.sort_key y) (Monitoreo.sort_key x)).
    + reflexivity.
    + cbn [List.filter] in *.
      destruct (f y), (f x); cbn [length] in *; rewrite IH; reflexivity.
Qed.

Lemma filter_sort_desc_length (f : Monitoreo.assessed -> bool) l :
  length (List.filter f (Monitoreo.sort_desc l)) = length (List.filter f l).
Proof.
  induction l as [| x l IH]; cbn [Monitoreo.sort_desc].
  - reflexivity.
  - rewrite filter_insert_desc_length. cbn [List.filter].
    destruct (f x); cbn [length]; rewrite IH; reflexivity.
Qed.

Lemma omap_assess_cons (cal : calendar) (model : option artifacts)
    (eq : event) (rest : list event) :
  omap (assess cal model) (eq :: rest)
  = match Monitoreo.predict_tsunami_risk cal model eq with
    | Some risk =>
        {| Monitoreo.eq_data := eq; Monitoreo.eq_risk := risk |}
          :: omap (assess cal model) rest
    | None => omap (assess cal model) rest
    end.
Proof.
  cbn. unfold assess at 1.
  destruct (Monitoreo.predict_tsunami_risk cal model eq); reflexivity.
Qed.

Lemma count_from (cal : calendar) (model : option artifacts)
    (alert_threshold : Q) (n : nat) (earthquakes : list event) :
  foldl (fun alerts_count eq =>
           match Monitoreo.predict_tsunami_risk cal model eq with
           | Some risk =>
               if Qle_bool alert_threshold (Monitoreo.probability risk)
               then S alerts_count
               else alerts_count
           | None => alerts_count
           end) n earthquakes
  = (n + length (List.filter (is_alert alert_threshold)
                             (omap (assess cal model) earthquakes)))%nat.
Proof.
  revert n. induction earthquakes as [| eq rest IH]; intros n.
  - cbn. lia.
  - cbn [foldl]. rewrite IH, omap_assess_cons.
    destruct (Monitoreo.predict_tsunami_risk cal model eq) as [risk |];
      [| reflexivity].
    cbn [List.filter]. unfold is_alert at 2. cbn [Monitoreo.eq_risk].
    destruct (Qle_bool alert_threshold (Monitoreo.probability risk));
      cbn [length]; lia.
Qed.

Lemma predict_without_model (cal : calendar) (earthquake : event) :
  Monitoreo.predict_tsunami_risk cal None earthquake = None.
Proof. reflexivity. Qed.

Lemma omap_assess_without_model (cal : calendar) (earthquakes : list event) :
  omap (assess cal None) earthquakes = [].
Proof. induction earthquakes as [| eq rest IH]; [reflexivity | exact IH]. Qed.

Lemma alerts_count_filter (cal : calendar) (model : option artifacts)
    (alert_threshold : Q) (earthquakes : list event) :
  Monitoreo.alerts_count cal model alert_threshold earthquakes
  = length (List.filter (is_alert alert_threshold)
                        (omap (assess cal model) earthquakes)).
Proof.
  unfold Monitoreo.alerts_count.
  destruct earthquakes as [| eq rest]; [reflexivity |].
  destruct model as [m |].
  - rewrite count_from. reflexivity.
  - rewrite omap_assess_without_model. reflexivity.
Qed.

Lemma prepare_input_ignores_risk (earthquake : event) (v : value) :
  Monitoreo.prepare_input (<["risk" := v]> earthquake)
  = Monitoreo.prepare_input earthquake.
Proof.
  unfold Monitoreo.prepare_input, Monitoreo.defaults. cbn [foldl fst snd].
  rewrite !get_insert_ne by discriminate. reflexivity.
Qed.

Lemma predict_ignores_risk (cal : calendar) (model : option artifacts)
    (earthquake : event) (v : value) :
  Monitoreo.predict_tsunami_risk cal model (<["risk" := v]> earthquake)
  = Monitoreo.predict_tsunami_risk cal model earthquake.
Proof.
  unfold Monitoreo.predict_tsunami_risk.
  rewrite prepare_input_ignores_risk.
  unfold Py.getitem. rewrite lookup_insert_ne by discriminate. reflexivity.
Qed.

(** C10.  Scoring an event is a function of the event: two runs give the
    same probability and tier, and the entry ['risk'] that the second pass
    writes into an event is not read by the scoring.  Hence, for every
    batch, the number of alerts counted for the summary equals the length
    of the list of active alerts built by the second pass with the same
    threshold, and the summary, when it is displayed, shows that number. *)
Theorem alert_count_matches_alert_list (cal : calendar)
    (model : option artifacts) (alert_threshold : Q)
    (earthquakes : list event) :
  Monitoreo.alerts_count cal model alert_threshold earthquakes
    = length (Monitoreo.high_risk cal model alert_threshold earthquakes) /\
  (forall eq r1 r2,
     Monitoreo.predict_tsunami_risk cal model eq = Some r1 ->
     Monitoreo.predict_tsunami_risk cal model eq = Some r2 ->
     Monitoreo.probability r1 = Monitoreo.probability r2 /\
     Monitoreo.risk_level r1 = Monitoreo.risk_level r2) /\
  (forall eq v,
     Monitoreo.predict_tsunami_risk cal model (<["risk" := v]> eq)
     = Monitoreo.predict_tsunami_risk cal model eq) /\
  (forall format_1f shown,
     Monitoreo.summary_metrics cal model alert_threshold format_1f earthquakes
       = Ok shown ->
     Monitoreo.alerts shown
     = length (Monitoreo.high_risk cal model alert_threshold earthquakes)).
Proof.
  assert (Hcount :
    Monitoreo.alerts_count cal model alert_threshold earthquakes
    = length (Monitoreo.high_risk cal model alert_threshold earthquakes)).
  { rewrite alerts_count_filter.
    unfold Monitoreo.high_risk, Monitoreo.earthquakes_with_risk.
    rewrite analyse_omap.
    symmetry. apply (filter_sort_desc_length (is_alert alert_threshold)). }
  split; [exact Hcount | split; [| split]].
  - intros eq r1 r2 H1 H2. rewrite H1 in H2. injection H2 as <-.
    split; reflexivity.
  - intros eq v. apply predict_ignores_risk.
  - intros format_1f shown H. unfold Monitoreo.summary_metrics in H.
    destruct earthquakes as [| eq rest]; cbn [bind] in H.
    + injection H as <-. exact Hcount.
    + destruct (Monitoreo.max_magnitude (eq :: rest)); cbn [bind] in H;
        [| discriminate].
      injection H as <-. exact Hcount.
Qed.

(** * Further properties of the two files *)

(** ** The proximity classifier off the finite numbers *)

Lemma App_proximity_number (x y : num) :
  exists b, App.calculate_ocean_proximity (VNum x) (VNum y)
            = Ok (Py.int_of_bool b).
Proof. eexists. reflexivity. Qed.

(** X1.  The classifier of the form raises exactly when one of its arguments is
    not a number: [&] and [|] evaluate every comparison. *)
Theorem App_proximity_raises_iff (lat lon : value) :
  App.calculate_ocean_proximity lat lon = Raise
  <-> ~ (is_number lat /\ is_number lon).
Proof.
  unfold is_number. split.
  - intros H [[x ->] [y ->]].
    destruct (App_proximity_number x y) as [b Hb]. congruence.
  - intros H. destruct lat as [| x | | | |]; try reflexivity.
    destruct lon as [| y | | | |]; try reflexivity.
    exfalso. apply H. eauto.
Qed.

Lemma num_ltb_trans_false_l (a b : Q) (x : num) :
  a <= b -> num_ltb (Fin a) x = false -> num_ltb (Fin b) x = false.
Proof.
  destruct x as [q | | |]; cbn; try (intros; congruence).
  rewrite !Qlt_bool_false_iff. intros; lra.
Qed.

Lemma num_ltb_trans_false_r (a b : Q) (x : num) :
  b <= a -> num_ltb x (Fin a) = false -> num_ltb x (Fin b) = false.
Proof.
  destruct x as [q | | |]; cbn; try (intros; congruence).
  rewrite !Qlt_bool_false_iff. intros; lra.
Qed.

(** X2.  The classifier of the monitoring page raises when the latitude is not
    a number.  With a latitude that is a number and a longitude that is
    not, it raises only if the latitude is strictly between -60 and 60;
    otherwise [and] never reaches the longitude and the result is 0. *)
Theorem Monitoreo_proximity_off_numbers (lat lon : value) :
  (~ is_number lat -> Monitoreo.calculate_ocean_proximity lat lon = Raise) /\
  (forall x : num, lat = VNum x -> ~ is_number lon ->
     Monitoreo.calculate_ocean_proximity lat lon
     = if num_ltb (Fin (-60)) x && num_ltb x (Fin 60)
       then Raise else Ok (lit 0)).
Proof.
  split.
  - intros H. destruct lat as [| x | | | |]; try reflexivity.
    exfalso. apply H. exists x. reflexivity.
  - intros x -> H.
    assert (Hlon : forall c, Py.gt lon (lit c) = Raise).
    { intros c. destruct lon as [| y | | | |]; try reflexivity.
      exfalso. apply H. exists y. reflexivity. }
    unfold Monitoreo.calculate_ocean_proximity.
    rewrite !Hlon. unfold Py.gt, Py.lt, lit.
    destruct (num_ltb (Fin (-60)) x) eqn:E1.
    + destruct (num_ltb x (Fin 60)) eqn:E2; [reflexivity |].
      rewrite (num_ltb_trans_false_r 60 25 x) by (lra || assumption).
      destruct (num_ltb (Fin (-45)) x), (num_ltb (Fin 5) x); reflexivity.
    + rewrite (num_ltb_trans_false_l (-60) (-45) x) by (lra || assumption).
      rewrite (num_ltb_trans_false_l (-60) 5 x) by (lra || assumption).
      reflexivity.
Qed.

Lemma Monitoreo_proximity_off_numbers_witness :
  ~ is_number VNone /\
  Monitoreo.calculate_ocean_proximity (lit 80) VNone = Ok (lit 0) /\
  Monitoreo.calculate_ocean_proximity (lit 10) VNone = Raise.
Proof.
  assert (H : ~ is_number VNone) by (intros [x Hx]; discriminate Hx).
  split; [exact H | split].
  - exact (proj2 (Monitoreo_proximity_off_numbers (lit 80) VNone)
                 (Fin 80) eq_refl H).
  - exact (proj2 (Monitoreo_proximity_off_numbers (lit 10) VNone)
                 (Fin 10) eq_refl H).
Defined.

(** X3.  On the meridians 120 E and 180, and from 60 degrees of latitude
    towards either pole, both classifiers return 0: the boxes are open. *)
Theorem proximity_zero_on_edges (lat lon : Q) :
  lon == 180 \/ lon == -180 \/ lon == 120 \/ 60 <= lat \/ lat <= -60 ->
  App.calculate_ocean_proximity (lit lat) (lit lon) = Ok (lit 0) /\
  Monitoreo.calculate_ocean_proximity (lit lat) (lit lon) = Ok (lit 0).
Proof.
  intros H.
  rewrite App_proximity_finite, Monitoreo_proximity_finite.
  assert (E : in_risk_basin_b lat lon = false).
  { apply in_risk_basin_b_false_iff.
    unfold in_risk_basin, in_pacific_ring, in_indian_ocean, in_caribbean.
    intros Hin.
    destruct H as [H | [H | [H | [H | H]]]];
      destruct Hin as [[? [[? ?] | [? ?]]] | [[? ?] | [? ?]]]; lra. }
  rewrite E. split; reflexivity.
Qed.

Lemma proximity_zero_on_edges_witness :
  (180 == 180 \/ 180 == -180 \/ 180 == 120 \/ 60 <= -18 \/ -18 <= -60) /\
  App.calculate_ocean_proximity (lit (-18)) (lit 180) = Ok (lit 0).
Proof.
  assert (H : 180 == 180 \/ 180 == -180 \/ 180 == 120 \/ 60 <= -18
              \/ -18 <= -60) by (left; reflexivity).
  split; [exact H |].
  exact (proj1 (proximity_zero_on_edges (-18) 180 H)).
Defined.

(** ** What the feature derivations keep, add and refuse *)

(** Case analysis on the first computation of a [let*] in a hypothesis. *)
Ltac split_binds H :=
  repeat match type of H with
         | context [bind ?a _] => destruct a; cbn [bind] in H
         end;
  try discriminate H.

Lemma lookup_derived_ne (k : string) (d : gmap string value) (a b c e : value) :
  ~ In k derived_keys ->
  <["shallow_strong" := a]>
    (<["intensity_score" := b]>
       (<["mag_depth_ratio" := c]> (<["ocean_proximity" := e]> d))) !! k
  = d !! k.
Proof.
  intros H. cbn [In derived_keys] in H.
  rewrite !lookup_insert_ne; [reflexivity | | | |]; intros <-; tauto.
Qed.

Lemma lookup_derived_some (k : string) (d : gmap string value) (a b c e : value) :
  In k derived_keys ->
  is_Some (<["shallow_strong" := a]>
             (<["intensity_score" := b]>
                (<["mag_depth_ratio" := c]> (<["ocean_proximity" := e]> d)))
           !! k).
Proof.
  cbn [In derived_keys].
  intros [<- | [<- | [<- | [<- | []]]]];
    rewrite ?lookup_insert_ne by discriminate;
    rewrite lookup_insert_eq; eauto.
Qed.

(** X4.  When a derivation returns, it has added the four derived keys and has
    left every other entry of its input as it was. *)
Theorem derivations_extend_input (data out : gmap string value) :
  App.engineer_features data = Ok out \/ Monitoreo.engineer data = Ok out ->
  (forall k, In k derived_keys -> is_Some (out !! k)) /\
  (forall k, ~ In k derived_keys -> out !! k = data !! k).
Proof.
  intros [H | H].
  - unfold App.engineer_features in H. split_binds H.
    injection H as <-.
    split; intros k Hk;
      [apply lookup_derived_some | apply lookup_derived_ne]; exact Hk.
  - unfold Monitoreo.engineer in H. split_binds H.
    injection H as <-.
    split; intros k Hk;
      [apply lookup_derived_some | apply lookup_derived_ne]; exact Hk.
Qed.

Lemma derivations_extend_input_witness :
  (forall k, In k derived_keys ->
     is_Some (engineered japan_2011 38.322 142.369 9.1 29.0 7 1000 !! k)) /\
  (forall k, ~ In k derived_keys ->
     engineered japan_2011 38.322 142.369 9.1 29.0 7 1000 !! k
     = japan_2011 !! k).
Proof.
  apply (derivations_extend_input japan_2011). left.
  apply App_engineer_features_finite.
  - apply finite_frame_event, japan_2011_finite.
  - intros E; discriminate E.
Defined.

(** Evaluate a derivation on a dict of which one lookup is known. *)
Ltac run_with H :=
  repeat first
    [ reflexivity
    | rewrite H
    | rewrite lookup_insert_ne by discriminate
    | progress cbn [bind]
    | match goal with
      | |- context [bind ?a _] => destruct a
      end ].

(** X5.  A dict without a latitude, a longitude, a magnitude or a depth makes
    both derivations raise. *)
Theorem derivations_need_mandatory_keys (data : gmap string value) (k : string) :
  In k ["latitude"; "longitude"; "magnitude"; "depth"] ->
  data !! k = None ->
  App.engineer_features data = Raise /\ Monitoreo.engineer data = Raise.
Proof.
  cbn [In]. intros Hk H.
  unfold App.engineer_features, Monitoreo.engineer, Py.getitem.
  destruct Hk as [<- | [<- | [<- | [<- | []]]]]; split; run_with H.
Qed.

Lemma derivations_need_mandatory_keys_witness :
  In "magnitude" ["latitude"; "longitude"; "magnitude"; "depth"] /\
  quake_without_magnitude !! "magnitude" = None /\
  App.engineer_features quake_without_magnitude = Raise.
Proof.
  assert (Hk : In "magnitude" ["latitude"; "longitude"; "magnitude"; "depth"])
    by (right; right; left; reflexivity).
  assert (H : quake_without_magnitude !! "magnitude" = None) by reflexivity.
  split; [exact Hk | split; [exact H |]].
  exact (proj1 (derivations_need_mandatory_keys _ _ Hk H)).
Defined.

Lemma is_zero_Fin_true (q : Q) : q == 0 -> is_zero (Fin q) = true.
Proof. intros H. cbn. apply Qeq_bool_iff. exact H. Qed.

(** X6.  At the depth -1 the divisor [depth + 1] is zero.  The form's
    derivation raises (Python's [ZeroDivisionError]); the page's derivation
    returns, and stores an infinity of the sign of the magnitude, or NaN
    for the magnitude 0, as [mag_depth_ratio]. *)
Theorem zero_divisor_form_raises_page_returns (data : gmap string value)
    (lat lon mag depth mmi sig : Q) :
  finite_frame data lat lon mag depth mmi sig ->
  depth + 1 == 0 ->
  App.engineer_features data = Raise /\
  feature Monitoreo.engineer data "mag_depth_ratio"
  = Some (VNum (if Qeq_bool mag 0 then NaN else inf (Qlt_bool mag 0))).
Proof.
  intros (Hlat & Hlon & Hmag & Hdep & Hmmi & Hsig) Hz. split.
  - unfold App.engineer_features.
    run. rewrite App_proximity_finite. run.
    unfold Py.div, lit. rewrite (is_zero_Fin_true _ Hz). reflexivity.
  - unfold feature, Monitoreo.engineer.
    run. rewrite Monitoreo_proximity_finite. run.
    unfold Pd.div at 1, lit at 1 2, num_div_ieee.
    rewrite (is_zero_Fin_true _ Hz). run. apply lookup_insert_eq.
Qed.

Lemma zero_divisor_form_raises_page_returns_witness :
  finite_frame (micro_at (-1)) 0.0 0.0 (-1) (-1) 1 0 /\
  -1 + 1 == 0 /\
  App.engineer_features (micro_at (-1)) = Raise /\
  feature Monitoreo.engineer (micro_at (-1)) "mag_depth_ratio"
  = Some (VNum NInf).
Proof.
  assert (Hz : -1 + 1 == 0) by reflexivity.
  split; [apply micro_at_finite | split; [exact Hz |]].
  exact (zero_divisor_form_raises_page_returns _ _ _ _ _ _ _
           (micro_at_finite (-1)) Hz).
Defined.

Lemma engineered_intensity_score (data : gmap string value)
    (lat lon mag depth mmi sig : Q) :
  engineered data lat lon mag depth mmi sig !! "intensity_score"
  = Some (lit (mag * 0.5 + mmi * 0.3 + sig / 100 * 0.2)).
Proof.
  unfold engineered. rewrite lookup_insert_ne by discriminate.
  apply lookup_insert_eq.
Qed.

(** X7.  On an event with finite fields, the form stores
    [magnitude * 0.5 + mmi * 0.3 + sig / 100 * 0.2] as [intensity_score],
    where an [mmi] or a [sig] that the dict lacks counts as 0, and stores
    as [ocean_proximity] the result of the classifier on the coordinates;
    on a frame that has all six columns the page stores the same values. *)
Theorem intensity_and_proximity_features (data : gmap string value)
    (lat lon mag depth mmi sig : Q) :
  finite_event data lat lon mag depth mmi sig ->
  ~ depth + 1 == 0 ->
  feature App.engineer_features data "intensity_score"
    = Some (lit (mag * 0.5 + mmi * 0.3 + sig / 100 * 0.2)) /\
  (data !! "mmi" = None -> mmi = 0) /\
  (data !! "sig" = None -> sig = 0) /\
  (feature App.engineer_features data "ocean_proximity" = Some (lit 1)
     <-> in_risk_basin lat lon) /\
  (feature App.engineer_features data "ocean_proximity" = Some (lit 0)
     <-> ~ in_risk_basin lat lon) /\
  (finite_frame data lat lon mag depth mmi sig ->
     feature Monitoreo.engineer data "intensity_score"
       = Some (lit (mag * 0.5 + mmi * 0.3 + sig / 100 * 0.2)) /\
     feature Monitoreo.engineer data "ocean_proximity"
       = feature App.engineer_features data "ocean_proximity").
Proof.
  intros F Hnz.
  assert (HA : forall k, feature App.engineer_features data k
                         = engineered data lat lon mag depth mmi sig !! k).
  { intros k. unfold feature.
    rewrite (App_engineer_features_finite _ _ _ _ _ _ _ F Hnz). reflexivity. }
  rewrite !HA, engineered_intensity_score, engineered_ocean_proximity.
  rewrite some_int_of_bool_1, some_int_of_bool_0, in_risk_basin_b_iff,
    in_risk_basin_b_false_iff.
  destruct F as (_ & _ & _ & _ & Hmmi & Hsig). unfold Py.get in Hmmi, Hsig.
  repeat split; try tauto.
  - intros E. rewrite E in Hmmi. injection Hmmi as <-. reflexivity.
  - intros E. rewrite E in Hsig. injection Hsig as <-. reflexivity.
  - rewrite (feature_Monitoreo_finite _ _ _ _ _ _ _ _ H Hnz).
    apply engineered_intensity_score.
  - rewrite (feature_Monitoreo_finite _ _ _ _ _ _ _ _ H Hnz).
    apply engineered_ocean_proximity.
Qed.

Lemma intensity_and_proximity_features_witness :
  finite_event japan_2011 38.322 142.369 9.1 29.0 7 1000 /\
  ~ 29.0 + 1 == 0 /\
  feature App.engineer_features japan_2011 "intensity_score"
    = Some (lit (9.1 * 0.5 + 7 * 0.3 + 1000 / 100 * 0.2)).
Proof.
  assert (F : finite_event japan_2011 38.322 142.369 9.1 29.0 7 1000)
    by (apply finite_frame_event, japan_2011_finite).
  assert (Hnz : ~ 29.0 + 1 == 0) by (intros E; discriminate E).
  split; [exact F | split; [exact Hnz |]].
  exact (proj1 (intensity_and_proximity_features _ _ _ _ _ _ _ F Hnz)).
Defined.

(** ** The projection on the schema *)

Lemma select_columns_char (row : gmap string value) (names : list string) :
  (forall X, select_columns row names = Ok X
             <-> Forall2 (fun n v => row !! n = Some v) names X) /\
  (select_columns row names = Raise
     <-> exists n, In n names /\ row !! n = None).
Proof.
  induction names as [| n names [IHok IHraise]]; cbn [select_columns].
  - split.
    + intros X. split.
      * intros H. injection H as <-. constructor.
      * intros H. inversion H. reflexivity.
    + split; [discriminate | intros (n & [] & _)].
  - unfold Py.getitem. destruct (row !! n) as [v |] eqn:E; cbn [bind].
    + destruct (select_columns row names) as [vs |] eqn:Es; cbn [bind].
      * split.
        -- intros X. split.
           ++ intros H. injection H as <-. constructor; [exact E |].
              apply IHok. reflexivity.
           ++ intros H. inversion H as [| ? v' ? X' Hv HX]; subst.
              apply IHok in HX. injection HX as <-.
              rewrite E in Hv. injection Hv as <-. reflexivity.
        -- split; [discriminate |].
           intros (n' & [<- | Hin] & Hn'); [congruence |].
           assert (Hr : Ok vs = @Raise (list value))
             by (apply IHraise; exists n'; auto).
           discriminate Hr.
      * split.
        -- intros X. split; [discriminate |].
           intros H. inversion H as [| ? v' ? X' Hv HX]; subst.
           apply IHok in HX. discriminate HX.
        -- split; [| reflexivity].
           intros _. destruct (proj1 IHraise eq_refl) as (n' & Hin & Hn').
           exists n'. split; [right; exact Hin | exact Hn'].
    + split.
      * intros X. split; [discriminate |].
        intros H. inversion H; subst. congruence.
      * split; [| reflexivity]. intros _. exists n. split; [left |]; auto.
Qed.


(** ** The form's prediction, whatever the event *)

Lemma App_predict_tsunami_inv (model : option artifacts)
    (data : gmap string value) (r : App.prediction) :
  App.predict_tsunami model data = Ok (Some r) ->
  App.risk_level r
    = (if Qle_bool 0.7 (App.probability r) then "🔴 Alto"
       else if Qle_bool 0.3 (App.probability r) then "🟡 Moderado"
       else "🟢 Bajo") /\
  App.risk_color r
    = (if Qle_bool 0.7 (App.probability r) then "#dc3545"
       else if Qle_bool 0.3 (App.probability r) then "#ffc107"
       else "#28a745") /\
  exists b1 b2 b3 b4 : bool,
    App.risk_factors r
    = (if b1 then [factor_magnitude] else [])
        ++ (if b2 then [factor_depth] else [])
        ++ (if b3 then [factor_ocean] else [])
        ++ (if b4 then [factor_intensity] else []).
Proof.
  intros H. unfold App.predict_tsunami in H.
  destruct model as [m |]; [| discriminate].
  split_binds H.
  all: match type of H with
       | context [Qle_bool 0.7 ?p] =>
           destruct (Qle_bool 0.7 p) eqn:E7; destruct (Qle_bool 0.3 p) eqn:E3
       end.
  all: try discriminate H.
  all: repeat match type of H with
              | context [if ?b then _ else _] => destruct b
              end.
  all: injection H as <-.
  all: cbn [App.risk_level App.risk_color App.probability App.risk_factors app].
  all: rewrite ?E7, ?E3.
  all: split; [reflexivity | split; [reflexivity |]].
  all: unfold factor_magnitude, factor_depth, factor_ocean, factor_intensity.
  all: first
      [ exists true, true, true, true; reflexivity
      | exists true, true, true, false; reflexivity
      | exists true, true, false, true; reflexivity
      | exists true, true, false, false; reflexivity
      | exists true, false, true, true; reflexivity
      | exists true, false, true, false; reflexivity
      | exists true, false, false, true; reflexivity
      | exists true, false, false, false; reflexivity
      | exists false, true, true, true; reflexivity
      | exists false, true, true, false; reflexivity
      | exists false, true, false, true; reflexivity
      | exists false, true, false, false; reflexivity
      | exists false, false, true, true; reflexivity
      | exists false, false, true, false; reflexivity
      | exists false, false, false, true; reflexivity
      | exists false, false, false, false; reflexivity ].
Qed.

(** X9.  For every assessment that the form returns, the recommendation shown
    under it follows the tier: the top alert with High, the caution with
    Moderate, the low-risk note with Low. *)
Theorem form_recommendation_follows_tier (model : option artifacts)
    (data : gmap string value) (r : App.prediction) :
  App.predict_tsunami model data = Ok (Some r) ->
  (App.recommendation r = st_error "**🚨 ALERTA MÁXIMA**"
     <-> App.risk_level r = "🔴 Alto") /\
  (App.recommendation r = st_warning "**⚠️ PRECAUCIÓN**"
     <-> App.risk_level r = "🟡 Moderado") /\
  (App.recommendation r = st_info "**ℹ️ RIESGO BAJO**"
     <-> App.risk_level r = "🟢 Bajo").
Proof.
  intros H. destruct (App_predict_tsunami_inv _ _ _ H) as (-> & _ & _).
  unfold App.recommendation.
  destruct (Qle_bool 0.7 (App.probability r));
    [| destruct (Qle_bool 0.3 (App.probability r))];
    repeat split; intros; first [reflexivity | discriminate].
Qed.

Lemma japan_2011_prediction :
  exists r, App.predict_tsunami (Some sample_model) japan_2011 = Ok (Some r).
Proof.
  eexists.
  eapply (App_predict_tsunami_finite sample_model japan_2011
            38.322 142.369 9.1 29.0 7 1000 0.9).
  - apply finite_frame_event, japan_2011_finite.
  - intros E; discriminate E.
  - reflexivity.
  - reflexivity.
  - reflexivity.
Defined.

Lemma form_recommendation_follows_tier_witness :
  exists r,
    App.predict_tsunami (Some sample_model) japan_2011 = Ok (Some r) /\
    (App.recommendation r = st_error "**🚨 ALERTA MÁXIMA**"
       <-> App.risk_level r = "🔴 Alto").
Proof.
  destruct japan_2011_prediction as [r Hr]. exists r. split; [exact Hr |].
  exact (proj1 (form_recommendation_follows_tier _ _ _ Hr)).
Defined.

(** X10.  For every assessment that the form returns, the risk factors are a
    subsequence of the four descriptions in the order magnitude, depth,
    ocean, intensity: none is repeated and the order never changes. *)
Theorem form_risk_factors_ordered (model : option artifacts)
    (data : gmap string value) (r : App.prediction) :
  App.predict_tsunami model data = Ok (Some r) ->
  sublist (App.risk_factors r) all_factors /\ NoDup (App.risk_factors r).
Proof.
  intros H.
  destruct (App_predict_tsunami_inv _ _ _ H)
    as (_ & _ & b1 & b2 & b3 & b4 & ->).
  assert (Hs : sublist
                 ((if b1 then [factor_magnitude] else [])
                    ++ (if b2 then [factor_depth] else [])
                    ++ (if b3 then [factor_ocean] else [])
                    ++ (if b4 then [factor_intensity] else []))
                 all_factors).
  { unfold all_factors. destruct b1, b2, b3, b4; cbn [app];
      repeat first [apply sublist_nil | apply sublist_skip
                   | apply sublist_cons]. }
  split; [exact Hs |].
  eapply sublist_NoDup; [| exact Hs].
  unfold all_factors, factor_magnitude, factor_depth, factor_ocean,
    factor_intensity.
  repeat (apply NoDup_cons; split;
          [rewrite ?elem_of_cons, elem_of_nil; intros H';
           repeat destruct H' as [H' | H']; (discriminate H' || exact H') |]).
  apply NoDup_nil. exact I.
Qed.

Lemma form_risk_factors_ordered_witness :
  exists r,
    App.predict_tsunami (Some sample_model) japan_2011 = Ok (Some r) /\
    sublist (App.risk_factors r) all_factors.
Proof.
  destruct japan_2011_prediction as [r Hr]. exists r. split; [exact Hr |].
  exact (proj1 (form_risk_factors_ordered _ _ _ Hr)).
Defined.

(** ** The scoring of the monitoring page, step by step *)

Lemma predict_tsunami_risk_frame (cal : calendar) (m : artifacts)
    (earthquake : event) :
  Monitoreo.predict_tsunami_risk cal (Some m) earthquake
  = match page_frame cal earthquake with
    | Ok df =>
        match score m df with
        | Ok p => Some (Monitoreo.classify_risk p)
        | Raise => None
        end
    | Raise => None
    end.
Proof.
  unfold Monitoreo.predict_tsunami_risk, page_frame, score, try_except.
  destruct (Py.getitem earthquake "time") as [dt |]; cbn [bind];
    [| reflexivity].
  destruct (Monitoreo.attr_year cal dt) as [y |]; cbn [bind]; [| reflexivity].
  destruct (Monitoreo.attr_month cal dt) as [mo |]; cbn [bind];
    [| reflexivity].
  destruct (Monitoreo.engineer _) as [df |]; cbn [bind]; [| reflexivity].
  destruct (select_columns df (feature_names m)) as [X |]; cbn [bind];
    [| reflexivity].
  destruct (predict_proba m X); reflexivity.
Qed.

Lemma score_stale (m : artifacts) (df : gmap string value) (n : string) :
  In n (feature_names m) -> df !! n = None -> score m df = Raise.
Proof.
  intros Hin Hn. unfold score.
  assert (Hr : select_columns df (feature_names m) = Raise)
    by (apply select_columns_char; exists n; auto).
  rewrite Hr. reflexivity.
Qed.

(** X11.  A schema that names a column which the derivation does not produce
    stops both paths, differently: the form's prediction raises, and the
    page, whose handler swallows the exception, leaves the event without
    assessment. *)
Theorem stale_schema_raises_or_drops (cal : calendar) (m : artifacts)
    (n : string) :
  In n (feature_names m) ->
  (forall data processed,
     App.engineer_features data = Ok processed -> processed !! n = None ->
     App.predict_tsunami (Some m) data = Raise) /\
  (forall earthquake df,
     page_frame cal earthquake = Ok df -> df !! n = None ->
     Monitoreo.predict_tsunami_risk cal (Some m) earthquake = None).
Proof.
  intros Hin. split.
  - intros data processed He Hn. unfold App.predict_tsunami.
    rewrite He. cbn [bind].
    assert (Hr : select_columns processed (feature_names m) = Raise)
      by (apply select_columns_char; exists n; auto).
    rewrite Hr. reflexivity.
  - intros earthquake df Hf Hn.
    rewrite predict_tsunami_risk_frame, Hf, (score_stale _ _ _ Hin Hn).
    reflexivity.
Qed.

(** X12.  The feature [shallow_strong] and the risk factors do not test the
    magnitude alike.  Whenever [shallow_strong] is 1, the factors of
    magnitude and of depth are both listed; but a shallow event of
    magnitude exactly 7.5 has both factors listed and [shallow_strong]
    equal to 0, because the feature asks for more than 7.5 and the factor
    for at least 7.5. *)
Theorem magnitude_threshold_asymmetry (m : artifacts)
    (data : gmap string value) (lat lon mag depth mmi sig p : Q)
    (X : list value) (c : value) :
  finite_event data lat lon mag depth mmi sig ->
  ~ depth + 1 == 0 ->
  select_columns (engineered data lat lon mag depth mmi sig) (feature_names m)
    = Ok X ->
  predict_proba m X = Ok p ->
  predict m X = Ok c ->
  exists r : App.prediction,
    App.predict_tsunami (Some m) data = Ok (Some r) /\
    (feature App.engineer_features data "shallow_strong" = Some (lit 1) ->
     In factor_magnitude (App.risk_factors r) /\
     In factor_depth (App.risk_factors r)) /\
    (mag == 7.5 -> depth < 70 ->
     feature App.engineer_features data "shallow_strong" = Some (lit 0) /\
     In factor_magnitude (App.risk_factors r) /\
     In factor_depth (App.risk_factors r)).
Proof.
  intros F Hnz HX Hp Hc.
  eexists. split; [exact (App_predict_tsunami_finite _ _ _ _ _ _ _ _ _ _ _
                            F Hnz HX Hp Hc) |].
  cbn [App.risk_factors].
  unfold feature.
  rewrite (App_engineer_features_finite _ _ _ _ _ _ _ F Hnz),
    engineered_shallow_strong, some_int_of_bool_1, some_int_of_bool_0.
  assert (Hboth : 7.5 <= mag -> depth < 70 ->
            In factor_magnitude
              ((if Qle_bool 7.5 mag then [factor_magnitude] else [])
                 ++ (if Qlt_bool depth 70 then [factor_depth] else [])
                 ++ (if in_risk_basin_b lat lon then [factor_ocean] else [])
                 ++ (if Qle_bool 6 mmi then [factor_intensity] else [])) /\
            In factor_depth
              ((if Qle_bool 7.5 mag then [factor_magnitude] else [])
                 ++ (if Qlt_bool depth 70 then [factor_depth] else [])
                 ++ (if in_risk_basin_b lat lon then [factor_ocean] else [])
                 ++ (if Qle_bool 6 mmi then [factor_intensity] else []))).
  { intros Hm Hd.
    apply Qle_bool_iff in Hm. apply Qlt_bool_iff in Hd. rewrite Hm, Hd.
    split; [left; reflexivity | right; left; reflexivity]. }
  split.
  - intros Hs. apply shallow_strong_b_iff in Hs as [Hd Hm].
    apply Hboth; lra.
  - intros Hm Hd. split; [| apply Hboth; lra].
    destruct (shallow_strong_b mag depth) eqn:E; [| reflexivity].
    apply shallow_strong_b_iff in E. lra.
Qed.

Lemma magnitude_threshold_asymmetry_witness :
  exists r : App.prediction,
    App.predict_tsunami (Some sample_model) (tohoku_at 10 ) = Ok (Some r) /\
    (feature App.engineer_features (tohoku_at 10) "shallow_strong"
       = Some (lit 1) ->
     In factor_magnitude (App.risk_factors r) /\
     In factor_depth (App.risk_factors r)).
Proof.
  assert (F : finite_event (tohoku_at 10) 38.322 142.369 9.1 10 7 1000)
    by (apply finite_frame_event, tohoku_at_finite).
  assert (Hnz : ~ 10 + 1 == 0) by (intros E; discriminate E).
  destruct (magnitude_threshold_asymmetry sample_model (tohoku_at 10)
              38.322 142.369 9.1 10 7 1000 0.9 _ _ F Hnz
              eq_refl eq_refl eq_refl)
    as (r & Hr & Hs & _).
  exists r. split; [exact Hr | exact Hs].
Defined.

Lemma prepare_input_lookup (earthquake : event) (k : string) :
  Monitoreo.prepare_input earthquake !! k
  = match Py.assoc k Monitoreo.defaults with
    | Some d =>
        Some (if Monitoreo.is_missing (Py.get earthquake k d) then d
              else Py.get earthquake k d)
    | None => None
    end.
Proof.
  unfold Monitoreo.prepare_input, Monitoreo.defaults.
  cbn [foldl fst snd Py.assoc].
  repeat match goal with
         | |- context [String.eqb k ?s] =>
             destruct (String.eqb_spec k s) as [-> | ?];
             [rewrite ?lookup_insert_ne by discriminate;
              rewrite lookup_insert_eq; reflexivity |]
         end.
  rewrite !lookup_insert_ne by congruence. apply lookup_empty.
Qed.

Lemma assoc_In (k : string) (d : value) (items : list (string * value)) :
  Py.assoc k items = Some d -> In (k, d) items.
Proof.
  induction items as [| [k' v] items IH]; cbn [Py.assoc]; [discriminate |].
  destruct (String.eqb_spec k k') as [-> | ?].
  - intros H. injection H as <-. left. reflexivity.
  - intros H. right. apply IH, H.
Qed.

Lemma defaults_assoc (k : string) (d : value) :
  In (k, d) Monitoreo.defaults -> Py.assoc k Monitoreo.defaults = Some d.
Proof.
  unfold Monitoreo.defaults. cbn [In].
  intros H. repeat destruct H as [H | H]; try contradiction;
    injection H as <- <-; reflexivity.
Qed.

Lemma defaults_not_missing (k : string) (d : value) :
  In (k, d) Monitoreo.defaults -> Monitoreo.is_missing d = false.
Proof.
  unfold Monitoreo.defaults. cbn [In].
  intros H. repeat destruct H as [H | H]; try contradiction;
    injection H as <- <-; reflexivity.
Qed.

(** X13.  The prepared input has the ten keys of [defaults] and nothing else.
    None of its values is [None] or NaN: a value of the event that is
    neither is kept as it is, and every other case gets the default.  In
    particular the fields [id], [place], [url] and [tsunami] of an event
    never reach the features. *)
Theorem prepare_input_complete (earthquake : event) :
  (forall k d, In (k, d) Monitoreo.defaults ->
     exists v,
       Monitoreo.prepare_input earthquake !! k = Some v /\
       Monitoreo.is_missing v = false /\
       (earthquake !! k = Some v \/
        v = d /\ (earthquake !! k = None \/
                  exists w, earthquake !! k = Some w /\
                            Monitoreo.is_missing w = true))) /\
  (forall k, ~ In k (map fst Monitoreo.defaults) ->
     Monitoreo.prepare_input earthquake !! k = None).
Proof.
  split.
  - intros k d Hin. rewrite prepare_input_lookup, (defaults_assoc _ _ Hin).
    pose proof (defaults_not_missing _ _ Hin) as Hd.
    unfold Py.get. destruct (earthquake !! k) as [w |] eqn:E; simpl.
    + destruct (Monitoreo.is_missing w) eqn:Ew.
      * exists d. split; [reflexivity | split; [exact Hd |]].
        right. split; [reflexivity |]. right. exists w. auto.
      * exists w. auto.
    + rewrite Hd. exists d. split; [reflexivity | split; [exact Hd |]].
      right. auto.
  - intros k Hk. rewrite prepare_input_lookup.
    destruct (Py.assoc k Monitoreo.defaults) as [d |] eqn:E; [| reflexivity].
    exfalso. apply Hk. apply assoc_In in E.
    apply (in_map fst) in E. exact E.
Qed.

Lemma prepare_input_agree (e1 e2 : event) :
  (forall k, In k scoring_keys -> e1 !! k = e2 !! k) ->
  Monitoreo.prepare_input e1 = Monitoreo.prepare_input e2.
Proof.
  intros H. apply map_eq. intros k. rewrite !prepare_input_lookup.
  destruct (Py.assoc k Monitoreo.defaults) as [d |] eqn:E; [| reflexivity].
  unfold Py.get. rewrite (H k); [reflexivity |].
  right. apply assoc_In in E. apply (in_map fst) in E. exact E.
Qed.

(** X14.  The scoring of an event reads its time and the ten fields that have
    a default, and nothing else: two events that agree on these eleven
    keys get the same assessment, or both get none. *)
Theorem scoring_reads_eleven_keys (cal : calendar) (model : option artifacts)
    (e1 e2 : event) :
  (forall k, In k scoring_keys -> e1 !! k = e2 !! k) ->
  Monitoreo.predict_tsunami_risk cal model e1
  = Monitoreo.predict_tsunami_risk cal model e2.
Proof.
  intros H. unfold Monitoreo.predict_tsunami_risk.
  rewrite (prepare_input_agree _ _ H).
  unfold Py.getitem. rewrite (H "time") by (left; reflexivity).
  reflexivity.
Qed.

Lemma scoring_reads_eleven_keys_witness :
  Monitoreo.predict_tsunami_risk sample_calendar (Some sample_model)
    (feed_event "a" 1299822384 9.1 38.322 142.369 29.0)
  = Monitoreo.predict_tsunami_risk sample_calendar (Some sample_model)
      (<["tsunami" := lit 1]>
         (<["place" := VStr "Honshu"]>
            (feed_event "a" 1299822384 9.1 38.322 142.369 29.0))).
Proof.
  apply scoring_reads_eleven_keys.
  intros k Hk. rewrite !lookup_insert_ne; [reflexivity | |];
    intros <-; cbn in Hk;
    repeat destruct Hk as [Hk | Hk]; (discriminate Hk || exact Hk).
Defined.

Lemma feed_event_prepared (id : string) (t mag lat lon depth : Q) :
  finite_frame
    (<["Month" := lit (inject_Z (month_of sample_calendar t))]>
       (<["Year" := lit (inject_Z (year_of sample_calendar t))]>
          (Monitoreo.prepare_input (feed_event id t mag lat lon depth))))
    lat lon mag depth 5 1000.
Proof.
  repeat split; rewrite !lookup_insert_ne by discriminate;
    rewrite prepare_input_lookup; reflexivity.
Qed.

Lemma page_frame_finite (cal : calendar) (earthquake : event)
    (t lat lon mag depth mmi sig : Q) :
  earthquake !! "time" = Some (VTime t) ->
  finite_frame
    (<["Month" := lit (inject_Z (month_of cal t))]>
       (<["Year" := lit (inject_Z (year_of cal t))]>
          (Monitoreo.prepare_input earthquake)))
    lat lon mag depth mmi sig ->
  ~ depth + 1 == 0 ->
  page_frame cal earthquake
  = Ok (engineered
          (<["Month" := lit (inject_Z (month_of cal t))]>
             (<["Year" := lit (inject_Z (year_of cal t))]>
                (Monitoreo.prepare_input earthquake)))
          lat lon mag depth mmi sig).
Proof.
  intros Ht F Hnz. unfold page_frame.
  rewrite (getitem_Some _ _ _ Ht). cbn [bind Monitoreo.attr_year
                                         Monitoreo.attr_month].
  apply Monitoreo_engineer_finite; assumption.
Qed.

Lemma stale_schema_raises_or_drops_witness :
  In "tsunami_history" (feature_names stale_schema_model) /\
  App.predict_tsunami (Some stale_schema_model) japan_2011 = Raise /\
  Monitoreo.predict_tsunami_risk sample_calendar (Some stale_schema_model)
    (feed_event "a" 1299822384 9.1 38.322 142.369 29.0) = None.
Proof.
  assert (Hin : In "tsunami_history" (feature_names stale_schema_model))
    by (right; left; reflexivity).
  destruct (stale_schema_raises_or_drops sample_calendar stale_schema_model
              "tsunami_history" Hin) as [Hform Hpage].
  split; [exact Hin | split].
  - apply (Hform japan_2011
             (engineered japan_2011 38.322 142.369 9.1 29.0 7 1000)).
    + apply App_engineer_features_finite.
      * apply finite_frame_event, japan_2011_finite.
      * intros E; discriminate E.
    + reflexivity.
  - eapply Hpage.
    + apply (page_frame_finite sample_calendar _ 1299822384
               38.322 142.369 9.1 29.0 5 1000).
      * reflexivity.
      * apply feed_event_prepared.
      * intros E; discriminate E.
    + unfold engineered. rewrite !lookup_insert_ne by discriminate.
      rewrite prepare_input_lookup. reflexivity.
Defined.

(** X15.  An event whose [time] is absent, or is not a datetime, gets no
    assessment, whatever the model: the lookup or the access to [.year]
    raises inside the handler. *)
Theorem no_assessment_without_time (cal : calendar) (model : option artifacts)
    (earthquake : event) :
  (forall t, earthquake !! "time" <> Some (VTime t)) ->
  Monitoreo.predict_tsunami_risk cal model earthquake = None.
Proof.
  intros H. unfold Monitoreo.predict_tsunami_risk.
  destruct model as [m |]; [| reflexivity].
  unfold Py.getitem.
  destruct (earthquake !! "time") as [[| x | s | l | items | t] |];
    try reflexivity.
  exfalso. apply (H t). reflexivity.
Qed.

Lemma no_assessment_without_time_witness :
  (forall t, japan_2011 !! "time" <> Some (VTime t)) /\
  Monitoreo.predict_tsunami_risk sample_calendar (Some sample_model) japan_2011
  = None.
Proof.
  assert (H : forall t, japan_2011 !! "time" <> Some (VTime t))
    by (intros t E; discriminate E).
  split; [exact H |].
  exact (no_assessment_without_time _ _ _ H).
Defined.

(** X16.  On an event with a datetime and, after the preparation, finite
    fields, the derivation of the page does not raise: the event gets an
    assessment exactly when the projection on the schema and the
    classifier return, and then it is the tier of their probability. *)
Theorem assessment_of_finite_event (cal : calendar) (m : artifacts)
    (earthquake : event) (t lat lon mag depth mmi sig : Q) :
  let df :=
    engineered
      (<["Month" := lit (inject_Z (month_of cal t))]>
         (<["Year" := lit (inject_Z (year_of cal t))]>
            (Monitoreo.prepare_input earthquake)))
      lat lon mag depth mmi sig in
  earthquake !! "time" = Some (VTime t) ->
  finite_frame
    (<["Month" := lit (inject_Z (month_of cal t))]>
       (<["Year" := lit (inject_Z (year_of cal t))]>
          (Monitoreo.prepare_input earthquake)))
    lat lon mag depth mmi sig ->
  ~ depth + 1 == 0 ->
  (forall p, score m df = Ok p ->
     Monitoreo.predict_tsunami_risk cal (Some m) earthquake
     = Some (Monitoreo.classify_risk p)) /\
  (score m df = Raise ->
     Monitoreo.predict_tsunami_risk cal (Some m) earthquake = None).
Proof.
  intros df Ht F Hnz. subst df.
  rewrite predict_tsunami_risk_frame,
    (page_frame_finite _ _ _ _ _ _ _ _ _ Ht F Hnz).
  split.
  - intros p ->. reflexivity.
  - intros ->. reflexivity.
Qed.

Lemma assessment_of_finite_event_witness :
  Monitoreo.predict_tsunami_risk sample_calendar (Some sample_model)
    (feed_event "a" 1299822384 9.1 38.322 142.369 29.0)
  = Some (Monitoreo.classify_risk 0.9).
Proof.
  apply (assessment_of_finite_event sample_calendar sample_model
           (feed_event "a" 1299822384 9.1 38.322 142.369 29.0)
           1299822384 38.322 142.369 9.1 29.0 5 1000).
  - reflexivity.
  - apply feed_event_prepared.
  - intros E; discriminate E.
  - unfold score, sample_model. cbn [feature_names select_columns].
    unfold Py.getitem, engineered.
    repeat (rewrite ?lookup_insert_ne by discriminate;
            rewrite ?lookup_insert_eq; rewrite ?prepare_input_lookup;
            cbn [bind]).
    reflexivity.
Defined.

Lemma Monitoreo_proximity_lat_raise (lat lon : value) :
  non_numeric lat -> Monitoreo.calculate_ocean_proximity lat lon = Raise.
Proof. destruct lat; cbn [non_numeric]; intros []; reflexivity. Qed.

Lemma engineer_refuses_non_numeric (df : gmap string value) (k : string)
    (v : value) :
  In k ["latitude"; "magnitude"; "depth"; "mmi"; "sig"] ->
  df !! k = Some v ->
  non_numeric v ->
  Monitoreo.engineer df = Raise.
Proof.
  cbn [In]. intros Hk H Hv.
  unfold Monitoreo.engineer, Py.getitem.
  destruct Hk as [<- | [<- | [<- | [<- | [<- | []]]]]].
  - rewrite H. cbn [bind].
    destruct (df !! "longitude"); cbn [bind]; [| reflexivity].
    rewrite (Monitoreo_proximity_lat_raise _ _ Hv). reflexivity.
  - destruct v; cbn [non_numeric] in Hv; try contradiction;
      repeat first
        [ reflexivity
        | rewrite H
        | rewrite lookup_insert_ne by discriminate
        | progress cbn [bind Py.add Pd.div]
        | match goal with
          | |- context [bind ?a _] => destruct a
          end ].
  - destruct v; cbn [non_numeric] in Hv; try contradiction;
      repeat first
        [ reflexivity
        | rewrite H
        | rewrite lookup_insert_ne by discriminate
        | progress cbn [bind Py.add Pd.div]
        | match goal with
          | |- context [bind ?a _] => destruct a
          end ].
  - destruct v; cbn [non_numeric] in Hv; try contradiction;
      repeat first
        [ reflexivity
        | rewrite H
        | rewrite lookup_insert_ne by discriminate
        | progress cbn [bind Py.mul]
        | match goal with
          | |- context [bind ?a _] => destruct a
          end ].
  - destruct v; cbn [non_numeric] in Hv; try contradiction;
      repeat first
        [ reflexivity
        | rewrite H
        | rewrite lookup_insert_ne by discriminate
        | progress cbn [bind Pd.div]
        | match goal with
          | |- context [bind ?a _] => destruct a
          end ].
Qed.

(** X17.  An event whose latitude, magnitude, depth, [mmi] or [sig] is a string,
    a list, a dict or a datetime gets no assessment: the preparation keeps
    such a value, and the derivation raises on it inside the handler. *)
Theorem no_assessment_for_non_numeric_field (cal : calendar)
    (model : option artifacts) (earthquake : event) (k : string) (v : value) :
  In k ["latitude"; "magnitude"; "depth"; "mmi"; "sig"] ->
  earthquake !! k = Some v ->
  non_numeric v ->
  Monitoreo.predict_tsunami_risk cal model earthquake = None.
Proof.
  intros Hk H Hv. destruct model as [m |]; [| reflexivity].
  rewrite predict_tsunami_risk_frame. unfold page_frame.
  destruct (Py.getitem earthquake "time") as [dt |]; cbn [bind];
    [| reflexivity].
  destruct (Monitoreo.attr_year cal dt) as [y |]; cbn [bind]; [| reflexivity].
  destruct (Monitoreo.attr_month cal dt) as [mo |]; cbn [bind];
    [| reflexivity].
  rewrite (engineer_refuses_non_numeric _ k v Hk); [reflexivity | | exact Hv].
  assert (Hd : exists d, Py.assoc k Monitoreo.defaults = Some d).
  { cbn [In] in Hk.
    destruct Hk as [<- | [<- | [<- | [<- | [<- | []]]]]]; eexists;
      reflexivity. }
  destruct Hd as [d Hd].
  rewrite !lookup_insert_ne.
  - rewrite prepare_input_lookup, Hd. unfold Py.get. rewrite H. cbn.
    destruct v; cbn [non_numeric] in Hv; try contradiction; reflexivity.
  - cbn [In] in Hk. intros <-.
    destruct Hk as [E | [E | [E | [E | [E | []]]]]]; discriminate E.
  - cbn [In] in Hk. intros <-.
    destruct Hk as [E | [E | [E | [E | [E | []]]]]]; discriminate E.
Qed.

Lemma no_assessment_for_non_numeric_field_witness :
  Monitoreo.predict_tsunami_risk sample_calendar (Some sample_model)
    (<["magnitude" := VStr "9.1"]>
       (feed_event "a" 1299822384 9.1 38.322 142.369 29.0))
  = None.
Proof.
  apply (no_assessment_for_non_numeric_field _ _ _ "magnitude" (VStr "9.1")).
  - right; left; reflexivity.
  - apply lookup_insert_eq.
  - exact I.
Defined.

(** ** What the fetch returns *)

Lemma fromtimestamp_inv (cal : calendar) (v w : value) :
  Monitoreo.fromtimestamp cal v = Ok w -> exists t, w = VTime t.
Proof.
  unfold Monitoreo.fromtimestamp.
  destruct v as [| [q | | |] | | | |]; try discriminate.
  destruct (representable cal q); [| discriminate].
  intros H. injection H as <-. eauto.
Qed.

Lemma earthquake_of_feature_inv (cal : calendar) (feature : value) (eq : event) :
  Monitoreo.earthquake_of_feature cal feature = Ok eq ->
  exists props id mag place longitude latitude depth t,
    Py.subscript feature "properties" = Ok (VDict props) /\
    eq = event_of_parts props id mag place longitude latitude depth t.
Proof.
  intros H. unfold Monitoreo.earthquake_of_feature in H.
  destruct (Py.subscript feature "properties") as [pv |] eqn:Ep;
    cbn [bind] in H; [| discriminate].
  destruct pv as [| x | s | l | props | t0];
    repeat (cbn [bind Py.subscript Py.dict_get] in H;
            match type of H with
            | context [bind ?a _] => destruct a eqn:?
            end);
    cbn [bind Py.subscript Py.dict_get] in H; try discriminate H.
  match goal with
  | E : Monitoreo.fromtimestamp cal _ = Ok _ |- _ =>
      apply fromtimestamp_inv in E as [t ->]
  end.
  injection H as <-. unfold event_of_parts. eauto 12.
Qed.

Lemma collect_char (cal : calendar) (features : list value) :
  (forall l, Monitoreo.collect cal features = Ok l
             <-> Forall2 (fun f e => Monitoreo.earthquake_of_feature cal f = Ok e)
                         features l) /\
  (Monitoreo.collect cal features = Raise
     <-> exists f, In f features /\
                   Monitoreo.earthquake_of_feature cal f = Raise).
Proof.
  induction features as [| f features [IHok IHraise]];
    cbn [Monitoreo.collect].
  - split.
    + intros l. split.
      * intros H. injection H as <-. constructor.
      * intros H. inversion H. reflexivity.
    + split; [discriminate | intros (f & [] & _)].
  - destruct (Monitoreo.earthquake_of_feature cal f) as [e |] eqn:E;
      cbn [bind].
    + destruct (Monitoreo.collect cal features) as [es |] eqn:Es; cbn [bind].
      * split.
        -- intros l. split.
           ++ intros H. injection H as <-. constructor; [exact E |].
              apply IHok. reflexivity.
           ++ intros H. inversion H as [| ? e' ? l' He Hl]; subst.
              apply IHok in Hl. injection Hl as <-.
              rewrite E in He. injection He as <-. reflexivity.
        -- split; [discriminate |].
           intros (f' & [<- | Hin] & Hf'); [congruence |].
           assert (Hr : Ok es = @Raise (list event))
             by (apply IHraise; exists f'; auto).
           discriminate Hr.
      * split.
        -- intros l. split; [discriminate |].
           intros H. inversion H as [| ? e' ? l' He Hl]; subst.
           apply IHok in Hl. discriminate Hl.
        -- split; [| reflexivity].
           intros _. destruct (proj1 IHraise eq_refl) as (f' & Hin & Hf').
           exists f'. split; [right; exact Hin | exact Hf'].
    + split.
      * intros l. split; [discriminate |].
        intros H. inversion H; subst. congruence.
      * split; [| reflexivity]. intros _. exists f. split; [left |]; auto.
Qed.

Lemma fetch_In (cal : calendar) (catalog : Z -> Q -> Monitoreo.upstream)
    (minutes : Z) (min_magnitude : Q) (eq : event) :
  In eq (Monitoreo.fetch_recent_earthquakes cal catalog minutes min_magnitude) ->
  exists feature, Monitoreo.earthquake_of_feature cal feature = Ok eq.
Proof.
  unfold Monitoreo.fetch_recent_earthquakes, Monitoreo.parse_features,
    try_except.
  destruct (Monitoreo.response_json _) as [data |]; cbn [bind];
    [| intros []].
  destruct (Py.dict_get data "features" (VList [])) as [fv |]; cbn [bind];
    [| intros []].
  destruct (Py.iter fv) as [features |]; cbn [bind]; [| intros []].
  destruct (Monitoreo.collect cal features) as [l |] eqn:E; [| intros []].
  apply collect_char in E. intros Hin.
  induction E as [| f e fs es Hfe _ IH]; [destruct Hin |].
  destruct Hin as [<- | Hin]; [eauto | exact (IH Hin)].
Qed.

(** X18.  Every event that the fetch returns has exactly the fifteen keys of
    the dict built in the loop, and its [time] is a datetime.  So the
    lookups [eq['magnitude']], [eq['place']], [eq['url']] of the page do
    not fail on a fetched event, and the scoring never stops for want of
    a time. *)
Theorem fetched_events_are_complete (cal : calendar)
    (catalog : Z -> Q -> Monitoreo.upstream) (minutes : Z) (min_magnitude : Q)
    (eq : event) :
  In eq (Monitoreo.fetch_recent_earthquakes cal catalog minutes min_magnitude) ->
  dom eq = list_to_set event_keys /\
  exists t, eq !! "time" = Some (VTime t).
Proof.
  intros Hin. apply fetch_In in Hin as [feature Hf].
  apply earthquake_of_feature_inv in Hf
    as (props & id & mag & place & lon & lat & depth & t & _ & ->).
  split.
  - unfold event_of_parts. rewrite dom_list_to_map_L. reflexivity.
  - exists t. reflexivity.
Qed.

Lemma fetched_events_are_complete_witness :
  exists eq,
    In eq (Monitoreo.fetch_recent_earthquakes
             sample_calendar (fun _ _ => Monitoreo.Body sample_body) 60 5.0) /\
    dom eq = list_to_set event_keys.
Proof.
  eexists. split; [left; reflexivity |].
  refine (proj1 (fetched_events_are_complete
                   sample_calendar (fun _ _ => Monitoreo.Body sample_body)
                   60 5.0 _ _)).
  left. reflexivity.
Defined.

(** X19.  When the response carries a list of features, the fetch is all or
    nothing: if one feature cannot be turned into an event the result is
    empty, whatever the other features are; otherwise the result has one
    event per feature, in the order of the response. *)
Theorem fetch_all_or_nothing (cal : calendar)
    (catalog : Z -> Q -> Monitoreo.upstream) (minutes : Z) (min_magnitude : Q)
    (data : value) (features : list value) :
  catalog minutes min_magnitude = Monitoreo.Body data ->
  Py.dict_get data "features" (VList []) = Ok (VList features) ->
  ((exists f, In f features /\
              Monitoreo.earthquake_of_feature cal f = Raise) ->
   Monitoreo.fetch_recent_earthquakes cal catalog minutes min_magnitude = []) /\
  (forall l,
     Forall2 (fun f e => Monitoreo.earthquake_of_feature cal f = Ok e)
             features l ->
     Monitoreo.fetch_recent_earthquakes cal catalog minutes min_magnitude = l).
Proof.
  intros Hc Hd.
  unfold Monitoreo.fetch_recent_earthquakes, Monitoreo.parse_features.
  rewrite Hc. cbn [Monitoreo.response_json bind]. rewrite Hd.
  cbn [bind Py.iter]. split.
  - intros H. apply collect_char in H. rewrite H. reflexivity.
  - intros l H. apply collect_char in H. rewrite H. reflexivity.
Qed.

Lemma fetch_all_or_nothing_witness :
  Monitoreo.fetch_recent_earthquakes
    sample_calendar (fun _ _ => Monitoreo.Body mixed_body) 60 5.0 = [].
Proof.
  refine (proj1 (fetch_all_or_nothing
                   sample_calendar (fun _ _ => Monitoreo.Body mixed_body)
                   60 5.0 mixed_body _ eq_refl eq_refl) _).
  eexists. split; [right; left; reflexivity | reflexivity].
Defined.

(** X20.  For the six optional properties of a feature, an absent property and
    a null one reach the features as the same number.  The fetch replaces
    only an absent property, and keeps a null as [None]; the preparation
    of the input then replaces the [None].  Either way the prepared value
    is the documented default: 1000 for [sig], 5 for [mmi] and [cdi], 50
    for [nst], 1 for [dmin], 100 for [gap]. *)
Theorem absent_and_null_score_alike (cal : calendar) (feature : value)
    (props : list (string * value)) (eq : event) (k : string) (d : Q) :
  Monitoreo.earthquake_of_feature cal feature = Ok eq ->
  Py.subscript feature "properties" = Ok (VDict props) ->
  In (k, d) optional_defaults ->
  Py.assoc k props = None \/ Py.assoc k props = Some VNone \/
  Py.assoc k props = Some (VNum NaN) ->
  (Py.assoc k props = None -> exists q, eq !! k = Some (lit q) /\ q == d) /\
  (Py.assoc k props = Some VNone -> eq !! k = Some VNone) /\
  exists q, Monitoreo.prepare_input eq !! k = Some (lit q) /\ q == d.
Proof.
  intros Hf Hp Hk Hmiss.
  apply earthquake_of_feature_inv in Hf
    as (props' & id & mag & place & lon & lat & depth & t & Hp' & ->).
  rewrite Hp in Hp'. injection Hp' as <-.
  rewrite prepare_input_lookup. unfold Py.get, event_of_parts.
  unfold optional_defaults in Hk. cbn [In] in Hk.
  destruct Hk as [E | [E | [E | [E | [E | [E | []]]]]]];
    injection E as <- <-;
    (split; [| split]);
    try (intros E; rewrite E; eexists; split; reflexivity);
    try (intros E; rewrite E; reflexivity);
    destruct Hmiss as [E | [E | E]]; cbn; rewrite E;
      eexists; split; reflexivity.
Qed.

Lemma absent_and_null_score_alike_witness :
  exists eq,
    Monitoreo.earthquake_of_feature sample_calendar sample_feature = Ok eq /\
    eq !! "mmi" = Some VNone /\
    exists q, Monitoreo.prepare_input eq !! "mmi" = Some (lit q) /\ q == 5.
Proof.
  eexists. split; [reflexivity |].
  refine (let H := absent_and_null_score_alike sample_calendar sample_feature
                     _ _ "mmi" 5 eq_refl eq_refl _ _ in
          conj (proj1 (proj2 H) eq_refl) (proj2 (proj2 H))).
  - right; left; reflexivity.
  - right; left; reflexivity.
Defined.

(** ** Counts and order in a batch *)

Lemma omap_assess_length (cal : calendar) (model : option artifacts)
    (earthquakes : list event) :
  (length (omap (assess cal model) earthquakes) <= length earthquakes)%nat /\
  (length (omap (assess cal model) earthquakes) = length earthquakes
   <-> Forall (fun e => is_Some (Monitoreo.predict_tsunami_risk cal model e))
              earthquakes).
Proof.
  induction earthquakes as [| e rest [IHle IHeq]].
  - split; [reflexivity | split; [constructor | reflexivity]].
  - rewrite omap_assess_cons.
    destruct (Monitoreo.predict_tsunami_risk cal model e) as [r |] eqn:E;
      cbn [length].
    + split; [lia |]. split.
      * intros H. constructor; [rewrite E; eauto | apply IHeq; lia].
      * intros H. inversion H; subst. f_equal. apply IHeq. assumption.
    + split; [lia |]. split.
      * intros H. lia.
      * intros H. inversion H as [| ? ? [r Hr] _]; subst. congruence.
Qed.

Lemma filter_length_le {A : Type} (f : A -> bool) (l : list A) :
  (length (List.filter f l) <= length l)%nat.
Proof.
  induction l as [| x l IH]; cbn [List.filter length]; [lia |].
  destruct (f x); cbn [length]; lia.
Qed.

(** X21.  In every batch the alerts are at most the assessed events, which are
    at most the fetched events; and no event is dropped from the list
    exactly when every event of the batch can be scored. *)
Theorem alerts_at_most_assessed_at_most_total (cal : calendar)
    (model : option artifacts) (alert_threshold : Q)
    (earthquakes : list event) :
  (Monitoreo.alerts_count cal model alert_threshold earthquakes
   <= length (Monitoreo.earthquakes_with_risk cal model earthquakes))%nat /\
  (length (Monitoreo.earthquakes_with_risk cal model earthquakes)
   <= length earthquakes)%nat /\
  (length (Monitoreo.earthquakes_with_risk cal model earthquakes)
   = length earthquakes
   <-> Forall (fun e => is_Some (Monitoreo.predict_tsunami_risk cal model e))
              earthquakes).
Proof.
  assert (Hlen : length (Monitoreo.earthquakes_with_risk cal model earthquakes)
                 = length (omap (assess cal model) earthquakes)).
  { unfold Monitoreo.earthquakes_with_risk. rewrite analyse_omap.
    apply Permutation_length, sort_desc_Permutation. }
  rewrite Hlen, alerts_count_filter.
  destruct (omap_assess_length cal model earthquakes) as [Hle Heq].
  split; [apply filter_length_le | split; [exact Hle | exact Heq]].
Qed.

Lemma filter_alert_antitone (t1 t2 : Q) (l : list Monitoreo.assessed) :
  t1 <= t2 ->
  sublist (List.filter (is_alert t2) l) (List.filter (is_alert t1) l).
Proof.
  intros Ht. induction l as [| x l IH]; cbn [List.filter].
  - apply sublist_nil.
  - destruct (is_alert t2 x) eqn:E2; destruct (is_alert t1 x) eqn:E1;
      unfold is_alert in E1, E2.
    + apply sublist_skip, IH.
    + apply Qle_bool_iff in E2. apply Qle_bool_false_iff in E1. lra.
    + apply sublist_cons, IH.
    + exact IH.
Qed.

(** X22.  Raising the alert threshold can only remove alerts: the list of
    active alerts for the higher threshold is a subsequence of the list
    for the lower one, and the count shown in the summary does not grow. *)
Theorem higher_threshold_fewer_alerts (cal : calendar)
    (model : option artifacts) (t1 t2 : Q) (earthquakes : list event) :
  t1 <= t2 ->
  sublist (Monitoreo.high_risk cal model t2 earthquakes)
          (Monitoreo.high_risk cal model t1 earthquakes) /\
  (Monitoreo.alerts_count cal model t2 earthquakes
   <= Monitoreo.alerts_count cal model t1 earthquakes)%nat.
Proof.
  intros Ht. split.
  - unfold Monitoreo.high_risk. apply (filter_alert_antitone _ _ _ Ht).
  - rewrite !alerts_count_filter.
    apply sublist_length, (filter_alert_antitone _ _ _ Ht).
Qed.

Lemma higher_threshold_fewer_alerts_witness :
  0.3 <= 0.95 /\
  (Monitoreo.alerts_count sample_calendar (Some sample_model) 0.95
     [feed_event "a" 1299822384 9.1 38.322 142.369 29.0]
   <= Monitoreo.alerts_count sample_calendar (Some sample_model) 0.3
        [feed_event "a" 1299822384 9.1 38.322 142.369 29.0])%nat.
Proof.
  assert (Ht : 0.3 <= 0.95) by (intros E; discriminate E).
  split; [exact Ht |].
  exact (proj2 (higher_threshold_fewer_alerts
                  sample_calendar (Some sample_model) 0.3 0.95
                  [feed_event "a" 1299822384 9.1 38.322 142.369 29.0] Ht)).
Defined.

Lemma filter_alert_none (t : Q) (x : Monitoreo.assessed)
    (l : list Monitoreo.assessed) :
  is_alert t x = false ->
  Forall (no_less_probable x) l ->
  List.filter (is_alert t) l = [].
Proof.
  intros Hx Hall. induction Hall as [| y l Hy _ IH]; [reflexivity |].
  cbn [List.filter]. rewrite IH.
  unfold is_alert, no_less_probable, Monitoreo.sort_key in *.
  apply Qle_bool_false_iff in Hx.
  destruct (Qle_bool t _) eqn:E; [| reflexivity].
  apply Qle_bool_iff in E. lra.
Qed.

Lemma filter_alert_prefix (t : Q) (l : list Monitoreo.assessed) :
  StronglySorted no_less_probable l ->
  List.filter (is_alert t) l = take (length (List.filter (is_alert t) l)) l /\
  Forall (fun x => Monitoreo.sort_key x < t)
         (drop (length (List.filter (is_alert t) l)) l).
Proof.
  induction 1 as [| x l Hs [IHt IHd] Hall]; [split; [reflexivity | constructor] |].
  cbn [List.filter]. destruct (is_alert t x) eqn:E.
  - cbn [length take drop]. split; [f_equal; exact IHt | exact IHd].
  - rewrite (filter_alert_none t x l E Hall) in *. cbn [length take drop].
    split; [reflexivity |].
    unfold is_alert in E. apply Qle_bool_false_iff in E.
    constructor; [exact E |].
    eapply Forall_impl; [exact Hall |].
    intros y Hy. unfold no_less_probable, Monitoreo.sort_key in *. lra.
Qed.

(** X23.  The active alerts are the head of the sorted list: the list
    [high_risk] consists of the first entries of [earthquakes_with_risk],
    as many as the summary counts; each of them reaches the threshold and
    every entry after them is below it. *)
Theorem alerts_head_the_sorted_list (cal : calendar)
    (model : option artifacts) (alert_threshold : Q)
    (earthquakes : list event) :
  let n := Monitoreo.alerts_count cal model alert_threshold earthquakes in
  let sorted := Monitoreo.earthquakes_with_risk cal model earthquakes in
  Monitoreo.high_risk cal model alert_threshold earthquakes = take n sorted /\
  Forall (fun x => alert_threshold <= Monitoreo.sort_key x)
         (Monitoreo.high_risk cal model alert_threshold earthquakes) /\
  Forall (fun x => Monitoreo.sort_key x < alert_threshold) (drop n sorted).
Proof.
  cbv zeta.
  assert (Hn : Monitoreo.alerts_count cal model alert_threshold earthquakes
               = length (List.filter (is_alert alert_threshold)
                           (Monitoreo.earthquakes_with_risk
                              cal model earthquakes))).
  { rewrite alerts_count_filter.
    unfold Monitoreo.earthquakes_with_risk. rewrite analyse_omap.
    symmetry. apply filter_sort_desc_length. }
  rewrite Hn.
  assert (Hs : StronglySorted no_less_probable
                 (Monitoreo.earthquakes_with_risk cal model earthquakes))
    by (unfold Monitoreo.earthquakes_with_risk; apply sort_desc_sorted).
  destruct (filter_alert_prefix alert_threshold _ Hs) as [Ht Hd].
  split; [exact Ht | split; [| exact Hd]].
  unfold Monitoreo.high_risk.
  apply List.Forall_forall. intros x Hx. apply filter_In in Hx as [_ Hx].
  apply Qle_bool_iff in Hx. exact Hx.
Qed.

(** ** The maximum magnitude of the summary *)

Lemma max_from_finite (b : Q) (rest : list event) :
  Forall (fun e => exists q, e !! "magnitude" = Some (lit q)) rest ->
  exists m,
    Monitoreo.max_from (Fin b) rest = Ok (Fin m) /\
    b <= m /\
    (m = b \/ exists e, In e rest /\ e !! "magnitude" = Some (lit m)) /\
    Forall (fun e => forall q, e !! "magnitude" = Some (lit q) -> q <= m) rest.
Proof.
  intros H. revert b. induction H as [| e rest [q Hq] _ IH]; intros b.
  - exists b. cbn. repeat split; [lra | left; reflexivity | constructor].
  - cbn [Monitoreo.max_from]. rewrite (getitem_Some _ _ _ Hq).
    cbn [bind lit num_ltb].
    destruct (Qlt_bool b q) eqn:E.
    + apply Qlt_bool_iff in E.
      destruct (IH q) as (m & Hm & Hle & Hwho & Hall).
      exists m. split; [exact Hm | split; [lra | split]].
      * right. destruct Hwho as [-> | (e' & Hin & He')].
        -- exists e. split; [left; reflexivity | exact Hq].
        -- exists e'. split; [right; exact Hin | exact He'].
      * constructor; [| exact Hall].
        intros q' Hq'. rewrite Hq in Hq'. injection Hq' as <-. exact Hle.
    + apply Qlt_bool_false_iff in E.
      destruct (IH b) as (m & Hm & Hle & Hwho & Hall).
      exists m. split; [exact Hm | split; [exact Hle | split]].
      * destruct Hwho as [-> | (e' & Hin & He')]; [left; reflexivity |].
        right. exists e'. split; [right; exact Hin | exact He'].
      * constructor; [| exact Hall].
        intros q' Hq'. rewrite Hq in Hq'. injection Hq' as <-. lra.
Qed.

(** X24.  On a batch that is not empty and whose magnitudes are all finite
    numbers, the summary is displayed, and the magnitude it formats is the
    magnitude of an event of the batch that no other magnitude exceeds. *)
Theorem max_magnitude_is_the_maximum (cal : calendar)
    (model : option artifacts) (alert_threshold : Q)
    (format_1f : num -> string) (earthquakes : list event) :
  earthquakes <> [] ->
  Forall (fun e => exists q, e !! "magnitude" = Some (lit q)) earthquakes ->
  exists m,
    Monitoreo.max_magnitude earthquakes = Ok (Fin m) /\
    (exists e, In e earthquakes /\ e !! "magnitude" = Some (lit m)) /\
    Forall (fun e => forall q, e !! "magnitude" = Some (lit q) -> q <= m)
           earthquakes /\
    exists shown,
      Monitoreo.summary_metrics cal model alert_threshold format_1f earthquakes
        = Ok shown /\
      Monitoreo.max_mag shown = format_1f (Fin m) /\
      Monitoreo.total shown = length earthquakes.
Proof.
  intros Hne H. destruct earthquakes as [| e rest]; [contradiction |].
  inversion H as [| ? ? [q Hq] Hrest]; subst.
  destruct (max_from_finite q rest Hrest) as (m & Hm & Hle & Hwho & Hall).
  assert (Hmax : Monitoreo.max_magnitude (e :: rest) = Ok (Fin m)).
  { cbn [Monitoreo.max_magnitude]. rewrite (getitem_Some _ _ _ Hq).
    cbn [bind lit]. exact Hm. }
  exists m. split; [exact Hmax | split; [| split]].
  - destruct Hwho as [-> | (e' & Hin & He')].
    + exists e. split; [left; reflexivity | exact Hq].
    + exists e'. split; [right; exact Hin | exact He'].
  - constructor; [| exact Hall].
    intros q' Hq'. rewrite Hq in Hq'. injection Hq' as <-. exact Hle.
  - unfold Monitoreo.summary_metrics. rewrite Hmax. cbn [bind].
    eexists. split; [reflexivity | split; reflexivity].
Qed.

Lemma max_magnitude_is_the_maximum_witness :
  exists m,
    Monitoreo.max_magnitude
      [feed_event "a" 1 5.5 0 0 10; feed_event "b" 2 7.2 0 0 10;
       feed_event "c" 3 6.1 0 0 10]
    = Ok (Fin m).
Proof.
  destruct (max_magnitude_is_the_maximum
              sample_calendar None 0.3 (fun _ => "")
              [feed_event "a" 1 5.5 0 0 10; feed_event "b" 2 7.2 0 0 10;
               feed_event "c" 3 6.1 0 0 10])
    as (m & Hm & _).
  - discriminate.
  - repeat constructor; eexists; reflexivity.
  - exists m. exact Hm.
Defined.

Lemma max_from_none (best : num) (rest : list event) :
  (exists e, In e rest /\ e !! "magnitude" = Some VNone) ->
  Monitoreo.max_from best rest = Raise.
Proof.
  revert best. induction rest as [| e rest IH]; intros best (e' & Hin & He').
  - destruct Hin.
  - cbn [Monitoreo.max_from]. unfold Py.getitem.
    destruct Hin as [<- | Hin].
    + rewrite He'. reflexivity.
    + destruct (e !! "magnitude") as [[| x | | | |] |]; cbn [bind];
        try reflexivity.
      apply IH. eauto.
Qed.

(** X25.  A single event whose magnitude is [None] (a null [mag] in the
    response) makes the summary raise, which nothing catches, although the
    scoring of the same event would have put 5.0 in its place. *)
Theorem null_magnitude_breaks_summary (cal : calendar)
    (model : option artifacts) (alert_threshold : Q)
    (format_1f : num -> string) (earthquakes : list event) :
  (exists e, In e earthquakes /\ e !! "magnitude" = Some VNone) ->
  Monitoreo.summary_metrics cal model alert_threshold format_1f earthquakes
  = Raise.
Proof.
  intros (e' & Hin & He'). unfold Monitoreo.summary_metrics.
  destruct earthquakes as [| e rest]; [destruct Hin |].
  assert (Hmax : Monitoreo.max_magnitude (e :: rest) = Raise).
  { cbn [Monitoreo.max_magnitude]. unfold Py.getitem.
    destruct Hin as [<- | Hin].
    - rewrite He'. reflexivity.
    - destruct (e !! "magnitude") as [[| x | | | |] |]; cbn [bind];
        try reflexivity.
      apply max_from_none. eauto. }
  rewrite Hmax. reflexivity.
Qed.

Lemma null_magnitude_breaks_summary_witness :
  Monitoreo.summary_metrics sample_calendar (Some sample_model) 0.3
    (fun _ => "")
    [feed_event "a" 1 5.5 0 0 10;
     <["magnitude" := VNone]> (feed_event "b" 2 7.2 0 0 10)]
  = Raise.
Proof.
  apply null_magnitude_breaks_summary.
  eexists. split; [right; left; reflexivity | apply lookup_insert_eq].
Defined.

(** ** Advice and tier on the monitoring page *)

(** X26.  For every assessment of the page, the advice shown with an alert is
    decided by the probability at 0.7 and 0.5, and so does not follow the
    five tiers: Very-High always comes with the evacuation order and the
    order comes only with High or Very-High, but High comes with the order
    only from 0.7 on and with the preparation notice below; the notice to
    stay alert comes only with Moderate or a lower tier. *)
Theorem page_advice_and_tier (cal : calendar) (model : option artifacts)
    (earthquake : event) (r : Monitoreo.risk) :
  Monitoreo.predict_tsunami_risk cal model earthquake = Some r ->
  let p := Monitoreo.probability r in
  (Monitoreo.recommendation r = st_error "🚨 EVACUACIÓN INMEDIATA"
     <-> 0.7 <= p) /\
  (Monitoreo.recommendation r = st_warning "⚠️ PREPARAR EVACUACIÓN"
     <-> 0.5 <= p /\ p < 0.7) /\
  (Monitoreo.recommendation r = st_info "ℹ️ MANTENERSE ALERTA" <-> p < 0.5) /\
  (Monitoreo.risk_level r = "Muy Alto" ->
     Monitoreo.recommendation r = st_error "🚨 EVACUACIÓN INMEDIATA") /\
  (Monitoreo.recommendation r = st_error "🚨 EVACUACIÓN INMEDIATA" ->
     Monitoreo.risk_level r = "Alto" \/ Monitoreo.risk_level r = "Muy Alto") /\
  (Monitoreo.risk_level r = "Alto" ->
     (Monitoreo.recommendation r = st_error "🚨 EVACUACIÓN INMEDIATA"
        <-> 0.7 <= p)) /\
  (Monitoreo.recommendation r = st_info "ℹ️ MANTENERSE ALERTA" ->
     Monitoreo.risk_level r = "Muy Bajo" \/ Monitoreo.risk_level r = "Bajo" \/
     Monitoreo.risk_level r = "Moderado").
Proof.
  intros H p. subst p.
  rewrite (predict_tsunami_risk_classifies _ _ _ _ H).
  generalize (Monitoreo.probability r). clear. intros p.
  rewrite !classify_risk_probability.
  assert (Hrec :
    (Monitoreo.recommendation (Monitoreo.classify_risk p)
       = st_error "🚨 EVACUACIÓN INMEDIATA" <-> 0.7 <= p) /\
    (Monitoreo.recommendation (Monitoreo.classify_risk p)
       = st_warning "⚠️ PREPARAR EVACUACIÓN" <-> 0.5 <= p /\ p < 0.7) /\
    (Monitoreo.recommendation (Monitoreo.classify_risk p)
       = st_info "ℹ️ MANTENERSE ALERTA" <-> p < 0.5)).
  { unfold Monitoreo.recommendation. rewrite classify_risk_probability.
    by_cases_on (Qle_bool 0.7 p); [| by_cases_on (Qle_bool 0.5 p)];
      rewrite ?Qle_bool_iff, ?Qle_bool_false_iff in *;
      repeat split; intros; first [reflexivity | discriminate | lra]. }
  destruct Hrec as (He & Hw & Hi).
  split; [exact He | split; [exact Hw | split; [exact Hi |]]].
  rewrite He, Hi. clear He Hw Hi.
  tier_cases p; cbn [Monitoreo.risk_level];
    rewrite ?Qlt_bool_iff, ?Qlt_bool_false_iff in *;
    repeat split; intros; try discriminate; try lra; auto.
Qed.

Lemma sample_feed_assessment :
  Monitoreo.predict_tsunami_risk sample_calendar (Some sample_model)
    (feed_event "a" 1299822384 9.1 38.322 142.369 29.0)
  = Some (Monitoreo.classify_risk 0.9).
Proof.
  rewrite predict_tsunami_risk_frame.
  rewrite (page_frame_finite sample_calendar _ 1299822384
             38.322 142.369 9.1 29.0 5 1000);
    [| reflexivity | apply feed_event_prepared | intros E; discriminate E].
  assert (Hs : score sample_model
                 (engineered
                    (<["Month" := lit (inject_Z
                                         (month_of sample_calendar 1299822384))]>
                       (<["Year" := lit (inject_Z
                                           (year_of sample_calendar 1299822384))]>
                          (Monitoreo.prepare_input
                             (feed_event "a" 1299822384 9.1 38.322 142.369
                                         29.0))))
                    38.322 142.369 9.1 29.0 5 1000)
               = Ok 0.9).
  { unfold score, sample_model. cbn [feature_names select_columns].
    unfold Py.getitem, engineered.
    repeat (rewrite ?lookup_insert_ne by discriminate;
            rewrite ?lookup_insert_eq; rewrite ?prepare_input_lookup;
            cbn [bind]).
    reflexivity. }
  rewrite Hs. reflexivity.
Qed.

Lemma page_advice_and_tier_witness :
  exists r,
    Monitoreo.predict_tsunami_risk sample_calendar (Some sample_model)
      (feed_event "a" 1299822384 9.1 38.322 142.369 29.0) = Some r /\
    (Monitoreo.recommendation r = st_error "🚨 EVACUACIÓN INMEDIATA"
       <-> 0.7 <= Monitoreo.probability r).
Proof.
  exists (Monitoreo.classify_risk 0.9).
  split; [exact sample_feed_assessment |].
  exact (proj1 (page_advice_and_tier _ _ _ _ sample_feed_assessment)).
Defined.

(** ** The heat map of the analysis tab *)

Lemma for_each_length {A B : Type} (body : A -> result B) (l : list A)
    (ys : list B) :
  for_each body l = Ok ys -> length ys = length l.
Proof.
  revert ys. induction l as [| x l IH]; intros ys; cbn [for_each].
  - intros H. injection H as <-. reflexivity.
  - destruct (body x) as [y |]; cbn [bind]; [| discriminate].
    destruct (for_each body l) as [ys' |]; cbn [bind]; [| discriminate].
    intros H. injection H as <-. cbn [length]. f_equal. apply IH. reflexivity.
Qed.

Lemma for_each_Forall {A B : Type} (body : A -> result B) (P : B -> Prop)
    (l : list A) :
  (forall x, In x l -> exists y, body x = Ok y /\ P y) ->
  exists ys, for_each body l = Ok ys /\ Forall P ys.
Proof.
  induction l as [| x l IH]; intros H; cbn [for_each].
  - exists []. split; [reflexivity | constructor].
  - destruct (H x) as (y & Hy & HP); [left; reflexivity |].
    destruct IH as (ys & Hys & HPs); [intros x' Hx'; apply H; right; exact Hx' |].
    rewrite Hy, Hys. cbn [bind]. exists (y :: ys).
    split; [reflexivity | constructor; assumption].
Qed.

Lemma linspace_length (start stop : Q) (num : nat) :
  length (linspace start stop num) = num.
Proof. unfold linspace. rewrite length_map. apply length_seq. Qed.

Lemma inject_nat_nonneg (i : nat) : 0 <= inject_Z (Z.of_nat i).
Proof. unfold Qle. cbn. lia. Qed.

Lemma depth_range_nonneg (dep : Q) : In dep (linspace 0 200 20) -> 0 <= dep.
Proof.
  unfold linspace. intros H. apply in_map_iff in H as (i & <- & _).
  assert (Hstep : 0 <= (200 - 0) / inject_Z (Z.of_nat (20 - 1)))
    by (intros E; discriminate E).
  pose proof (inject_nat_nonneg i) as Hi.
  pose proof (Qmult_le_0_compat _ _ Hi Hstep). lra.
Qed.

Lemma test_data_finite (mag dep : Q) :
  finite_event (App.test_data mag dep) 35.0 140.0 mag dep 6.0 800.
Proof. repeat split; reflexivity. Qed.

Lemma test_data_columns (mag dep : Q) (n : string) :
  In n (test_keys ++ derived_keys) ->
  is_Some (engineered (App.test_data mag dep) 35.0 140.0 mag dep 6.0 800 !! n).
Proof.
  intros H. apply in_app_or in H as [H | H].
  - unfold engineered. cbn [In test_keys] in H.
    repeat destruct H as [<- | H]; try contradiction;
      rewrite !lookup_insert_ne by discriminate; eexists; reflexivity.
  - apply lookup_derived_some, H.
Qed.

Lemma select_columns_total (row : gmap string value) (names : list string) :
  Forall (fun n => is_Some (row !! n)) names ->
  exists X, select_columns row names = Ok X.
Proof.
  intros H. destruct (select_columns row names) as [X |] eqn:E; [eauto |].
  apply select_columns_char in E as (n & Hin & Hn).
  rewrite List.Forall_forall in H. destruct (H n Hin) as [v Hv]. congruence.
Qed.

(** X27.  With artifacts that answer on every row and a schema made of the
    inputs of the analysis tab and of the derived features, the heat map
    is computed without an exception (no depth of its grid makes the
    divisor zero, no column is missing) and has 20 rows of 20 entries. *)
Theorem heatmap_is_computed (m : artifacts) :
  Forall (fun n => In n (test_keys ++ derived_keys)) (feature_names m) ->
  (forall X, exists p, predict_proba m X = Ok p) ->
  (forall X, exists c, predict m X = Ok c) ->
  exists grid,
    App.heatmap (Some m) = Ok grid /\
    length grid = 20%nat /\
    Forall (fun row => length row = 20%nat) grid.
Proof.
  intros Hschema Hproba Hpredict. unfold App.heatmap.
  destruct (for_each_Forall
              (fun mag =>
                 for_each
                   (fun dep =>
                      let* result :=
                        App.predict_tsunami (Some m) (App.test_data mag dep) in
                      Ok (match result with
                          | Some r => App.probability r * 100
                          | None => 0
                          end))
                   (linspace 0 200 20))
              (fun row => length row = 20%nat)
              (linspace 5 9 20)) as (grid & Hgrid & Hrows).
  - intros mag _.
    destruct (for_each_Forall
                (fun dep =>
                   let* result :=
                     App.predict_tsunami (Some m) (App.test_data mag dep) in
                   Ok (match result with
                       | Some r => App.probability r * 100
                       | None => 0
                       end))
                (fun _ => True)
                (linspace 0 200 20)) as (row & Hrow & _).
    + intros dep Hdep. apply depth_range_nonneg in Hdep.
      destruct (select_columns_total
                  (engineered (App.test_data mag dep) 35.0 140.0 mag dep
                              6.0 800)
                  (feature_names m)) as [X HX].
      { eapply Forall_impl; [exact Hschema |].
        intros n Hn. apply test_data_columns, Hn. }
      destruct (Hproba X) as [p Hp]. destruct (Hpredict X) as [c Hc].
      rewrite (App_predict_tsunami_finite m _ _ _ _ _ _ _ p X c
                 (test_data_finite mag dep));
        [| lra | exact HX | exact Hp | exact Hc].
      cbn [bind]. eexists. split; [reflexivity | exact I].
    + exists row. split; [exact Hrow |].
      rewrite (for_each_length _ _ _ Hrow). apply linspace_length.
  - exists grid. split; [exact Hgrid | split; [| exact Hrows]].
    rewrite (for_each_length _ _ _ Hgrid). apply linspace_length.
Qed.

Lemma heatmap_is_computed_witness :
  exists grid,
    App.heatmap (Some (constant_model ["magnitude"; "depth"; "shallow_strong"]
                                      0.5))
    = Ok grid /\
    length grid = 20%nat.
Proof.
  destruct (heatmap_is_computed
              (constant_model ["magnitude"; "depth"; "shallow_strong"] 0.5))
    as (grid & Hgrid & Hlen & _).
  - repeat constructor; cbn; tauto.
  - intros X. eexists. reflexivity.
  - intros X. eexists. reflexivity.
  - exists grid. split; [exact Hgrid | exact Hlen].
Defined.

(** X28.  Without a model the heat map is still drawn: every prediction is
    [None] and every entry of the 20 by 20 grid is 0. *)
Theorem heatmap_without_model :
  exists grid,
    App.heatmap None = Ok grid /\
    length grid = 20%nat /\
    Forall (fun row => length row = 20%nat /\ Forall (fun z => z = 0) row) grid.
Proof.
  unfold App.heatmap.
  assert (Hrow : exists row,
            for_each (fun _ : Q => Ok (A := Q) 0) (linspace 0 200 20) = Ok row /\
            Forall (fun z => z = 0) row).
  { apply for_each_Forall. intros x _. exists 0. split; reflexivity. }
  destruct Hrow as (row & Hrow & Hzero).
  destruct (for_each_Forall
              (fun mag : Q =>
                 for_each
                   (fun dep =>
                      let* result :=
                        App.predict_tsunami None (App.test_data mag dep) in
                      Ok (match result with
                          | Some r => App.probability r * 100
                          | None => 0
                          end))
                   (linspace 0 200 20))
              (fun row => length row = 20%nat /\ Forall (fun z => z = 0) row)
              (linspace 5 9 20)) as (grid & Hgrid & Hrows).
  - intros mag _. exists row. split; [exact Hrow |].
    split; [| exact Hzero].
    rewrite (for_each_length _ _ _ Hrow). apply linspace_length.
  - exists grid. split; [exact Hgrid | split; [| exact Hrows]].
    rewrite (for_each_length _ _ _ Hgrid). apply linspace_length.
Qed.

(** ** The dict of the form *)

(** X29.  Whatever numbers are entered, the dict that the form builds has every
    key that the derivation reads, and with a depth that is not negative
    (the form's input starts at 0) the derivation returns: a press of the
    button can only fail in the projection on the schema or in the
    classifier.  The derivation keeps the place entered. *)
Theorem form_data_is_derived
    (magnitude depth latitude longitude cdi mmi sig nst dmin gap year month : Q)
    (place : string) :
  0 <= depth ->
  let data :=
    App.earthquake_data magnitude depth latitude longitude cdi mmi sig nst
                        dmin gap year month place in
  App.engineer_features data
    = Ok (engineered data latitude longitude magnitude depth mmi sig) /\
  feature App.engineer_features data "place" = Some (VStr place).
Proof.
  intros Hd data.
  assert (F : finite_event data latitude longitude magnitude depth mmi sig)
    by (repeat split; reflexivity).
  assert (Hnz : ~ depth + 1 == 0) by lra.
  unfold feature.
  rewrite (App_engineer_features_finite _ _ _ _ _ _ _ F Hnz).
  split; [reflexivity |].
  unfold engineered. rewrite !lookup_insert_ne by discriminate. reflexivity.
Qed.

Lemma form_data_is_derived_witness :
  0 <= 50 /\
  feature App.engineer_features
    (App.earthquake_data 7.0 50 0.0 0.0 5.0 6.0 800 50 1.0 100.0 2024 1 "")
    "place"
  = Some (VStr "").
Proof.
  assert (H : 0 <= 50) by (intros E; discriminate E).
  split; [exact H |].
  exact (proj2 (form_data_is_derived 7.0 50 0.0 0.0 5.0 6.0 800 50 1.0 100.0
                  2024 1 "" H)).
Defined.
